(** * sysstatus: the information-collection layer

    A shallow embedding of [sysstatus/utils.py], [sysstatus/core.py],
    [sysstatus/config.py], [sysstatus/exceptions.py] and of
    [sysstatus/cli.py]: [format_table], and [main] from the point where
    the arguments are parsed.

    Conventions of the model.
    - A Python [str] is a [string]; each [ascii] is one code point below 256.
    - A Python [int] is a [Z].  A finite [float] that is used as a number
      ([format_uptime]) is its exact rational value in [Q]; a [float] read
      from a file is a [pyfloat], which may be infinite or not a number.
    - Side effects are recorded in a [Trace]; what the operating system,
      the network and the Python runtime answer is given by an [Env].
    - Exceptions are values of [exn]; a computation is a function from the
      trace so far to an outcome and the new trace. *)

From Stdlib Require Import String Ascii List ZArith QArith Lia Bool.
From Stdlib Require Import DecimalString Permutation.
Import ListNotations.

Local Open Scope string_scope.
Local Open Scope Z_scope.

(** ** Python string built-ins *)

Module PyStr.

(** [str.isspace] on one code point below 256. *)
Definition is_space (c : ascii) : bool :=
  let n := nat_of_ascii c in
  ((9 <=? n) && (n <=? 13) || (28 <=? n) && (n <=? 32)
   || (n =? 133) || (n =? 160))%nat.

(** The line boundaries of [str.splitlines] below 256, "\r\n" apart. *)
Definition is_linebreak (c : ascii) : bool :=
  let n := nat_of_ascii c in
  ((10 <=? n) && (n <=? 13) || (28 <=? n) && (n <=? 30) || (n =? 133))%nat.

Definition is_empty (s : string) : bool :=
  match s with EmptyString => true | String _ _ => false end.

(** [s + c] for a single character [c]. *)
Definition snoc (s : string) (c : ascii) : string := s ++ String c EmptyString.

Fixpoint lstrip (s : string) : string :=
  match s with
  | EmptyString => EmptyString
  | String c r => if is_space c then lstrip r else s
  end.

Fixpoint rstrip (s : string) : string :=
  match s with
  | EmptyString => EmptyString
  | String c r =>
      let r' := rstrip r in
      if is_space c && is_empty r' then EmptyString else String c r'
  end.

(** [s.strip()] *)
Definition strip (s : string) : string := rstrip (lstrip s).

(** [s.startswith(p)] *)
Definition startswith (s p : string) : bool := String.prefix p s.

(** [s.split()]: the maximal runs of non-whitespace; [cur] is the run
    being read. *)
Fixpoint split_from (cur s : string) : list string :=
  match s with
  | EmptyString => if is_empty cur then [] else [cur]
  | String c r =>
      if is_space c
      then (if is_empty cur then split_from EmptyString r
            else cur :: split_from EmptyString r)
      else split_from (snoc cur c) r
  end.

Definition split (s : string) : list string := split_from EmptyString s.

(** [s.splitlines()]: a line ends at a boundary; what follows the last
    boundary is a line only when it is not empty. *)
Fixpoint splitlines_from (cur s : string) : list string :=
  match s with
  | EmptyString => if is_empty cur then [] else [cur]
  | String c r =>
      if Ascii.eqb c "013"
      then match r with
           | String c' r' =>
               if Ascii.eqb c' "010"
               then cur :: splitlines_from EmptyString r'
               else cur :: splitlines_from EmptyString r
           | EmptyString => [cur]
           end
      else if is_linebreak c then cur :: splitlines_from EmptyString r
      else splitlines_from (snoc cur c) r
  end.

Definition splitlines (s : string) : list string :=
  splitlines_from EmptyString s.

(** [sep.join(parts)] *)
Definition join (sep : string) (parts : list string) : string :=
  String.concat sep parts.

(** [str(n)] for an [int]. *)
Definition of_int (n : Z) : string := NilZero.string_of_int (Z.to_int n).

End PyStr.

(** ** utils.py *)

(** [int(seconds)]: the value with its fractional part discarded
    (towards zero). *)
Definition py_int (x : Q) : Z := Z.quot (Qnum x) (Z.pos (Qden x)).

(** [parts.append(x)] *)
Definition list_append {A : Type} (parts : list A) (x : A) : list A :=
  app parts [x].

(** [format_uptime], from [parts = []] to the last [append]. *)
Definition uptime_parts (seconds : Z) : list string :=
  let days := seconds / 86400 in
  let remainder := seconds mod 86400 in
  let hours := remainder / 3600 in
  let remainder := remainder mod 3600 in
  let minutes := remainder / 60 in
  let seconds := remainder mod 60 in
  let parts := [] in
  let parts := if days =? 0 then parts else list_append parts (PyStr.of_int days ++ "d") in
  let parts := if hours =? 0 then parts else list_append parts (PyStr.of_int hours ++ "h") in
  let parts := if minutes =? 0 then parts else list_append parts (PyStr.of_int minutes ++ "m") in
  let parts :=
    if negb (seconds =? 0) || (match parts with [] => true | _ => false end)
    then list_append parts (PyStr.of_int seconds ++ "s") else parts in
  parts.

Definition format_uptime (seconds : Q) : string :=
  let seconds := py_int seconds in
  PyStr.join " " (uptime_parts seconds).

(** What the claim on [format_uptime] compares the code with: the units
    of a decomposition, largest first, those that are zero left out, and
    "0s" when nothing is left. *)
Definition nonzero_units (d h m s : Z) : list (Z * string) :=
  filter (fun u => negb (fst u =? 0)) [(d, "d"); (h, "h"); (m, "m"); (s, "s")].

Definition render_units (us : list (Z * string)) : string :=
  match us with
  | [] => "0s"
  | _ => PyStr.join " " (map (fun u => PyStr.of_int (fst u) ++ snd u) us)
  end.

(** ** Exceptions

    [exceptions.py] declares [SysStatusError], [NetworkError],
    [WeatherAPIError] and [SystemInfoError]; the other classes are those of
    Python, [subprocess], [json] and [requests] that [core.py] names in an
    [except] clause or can meet.  [bases] lists the direct base classes of
    each, as the class statements give them.

    [JSONDecodeError] is [json.JSONDecodeError].  [RequestsConnectionError],
    [RequestsTimeout] and [RequestsJSONDecodeError] are [ConnectionError],
    [Timeout] and [JSONDecodeError] of [requests.exceptions]; the last one,
    which [Response.json()] raises since requests 2.27, derives from
    [InvalidJSONError] and from [json.JSONDecodeError].  [IOError] is
    another name of [OSError]. *)

Inductive exn_class : Set :=
| BaseException | KeyboardInterrupt | Exception
| TypeError | AttributeError | ValueError
| ArithmeticError | OverflowError
| LookupError | KeyError | IndexError
| OSError | FileNotFoundError
| JSONDecodeError
| SubprocessError | CalledProcessError | TimeoutExpired
| RequestException | RequestsConnectionError | RequestsTimeout | HTTPError
| InvalidJSONError | RequestsJSONDecodeError
| SysStatusError | NetworkError | WeatherAPIError | SystemInfoError.

Scheme Equality for exn_class.

Definition bases (c : exn_class) : list exn_class :=
  match c with
  | BaseException => []
  | KeyboardInterrupt | Exception => [BaseException]
  | TypeError | AttributeError | ValueError | ArithmeticError | LookupError
  | OSError | SubprocessError | SysStatusError => [Exception]
  | OverflowError => [ArithmeticError]
  | KeyError | IndexError => [LookupError]
  | FileNotFoundError => [OSError]
  | JSONDecodeError => [ValueError]
  | CalledProcessError | TimeoutExpired => [SubprocessError]
  | RequestException => [OSError]
  | RequestsConnectionError | RequestsTimeout | HTTPError
  | InvalidJSONError => [RequestException]
  | RequestsJSONDecodeError => [InvalidJSONError; JSONDecodeError]
  | NetworkError | WeatherAPIError | SystemInfoError => [SysStatusError]
  end.

(** [issubclass(c, d)], following [bases]; no chain is longer than six. *)
Fixpoint issubclass_upto (depth : nat) (c d : exn_class) : bool :=
  exn_class_beq c d ||
  match depth with
  | O => false
  | S depth' => existsb (fun b => issubclass_upto depth' b d) (bases c)
  end.

Definition issubclass (c d : exn_class) : bool := issubclass_upto 6 c d.

(** An exception: its class and [str(e)]. *)
Record exn : Set := Exn { class_of : exn_class; str_of : string }.

Definition isinstance (e : exn) (c : exn_class) : bool :=
  issubclass (class_of e) c.

(** [except (c1, c2, ...)] catches [e]. *)
Definition caught_by (classes : list exn_class) (e : exn) : bool :=
  existsb (isinstance e) classes.

(** ** Computations: a trace of effects, and exceptions *)

Inductive level : Set := DEBUG | WARNING | ERROR.

(** One effect of the program, as the trace records it. *)
Inductive event : Set :=
| Log (lvl : level) (msg : string)
| Now
| HttpGet (url : string) (timeout : Z)
| RunIpRoute
| SocketProbe
| HostnameLookup
| UptimeExists
| UptimeRead.

(** The effects so far, the latest first. *)
Definition Trace : Set := list event.

Inductive result (A : Type) : Type :=
| Return (a : A)
| Raise (e : exn).
Arguments Return {A} a.
Arguments Raise {A} e.

Definition M (A : Type) : Type := Trace -> result A * Trace.

Definition ret {A : Type} (a : A) : M A := fun t => (Return a, t).

Definition raise {A : Type} (e : exn) : M A := fun t => (Raise e, t).

Definition bind {A B : Type} (m : M A) (k : A -> M B) : M B :=
  fun t =>
    match m t with
    | (Return a, t') => k a t'
    | (Raise e, t') => (Raise e, t')
    end.

Notation "x <- m ;; k" := (bind m (fun x => k))
  (at level 61, m at next level, right associativity).
Notation "m ;; k" := (bind m (fun _ => k))
  (at level 61, right associativity).

(** A value or exception of a pure step, with no effect. *)
Definition lift {A : Type} (r : result A) : M A := fun t => (r, t).

(** An effect [ev] whose answer the environment gives from the history. *)
Definition call {A : Type} (ev : event) (answer : Trace -> result A) : M A :=
  fun t => (answer t, ev :: t).

(** [self.logger.<lvl>(msg)] *)
Definition log (lvl : level) (msg : string) : M unit :=
  fun t => (Return tt, Log lvl msg :: t).

(** [try: body  except C1 as e: h1  except C2 as e: h2 ...]: the first
    clause that catches the exception handles it; an exception raised by a
    handler is not offered to the other clauses. *)
Definition try_except {A : Type} (body : M A)
    (clauses : list (list exn_class * (exn -> M A))) : M A :=
  fun t =>
    match body t with
    | (Return a, t') => (Return a, t')
    | (Raise e, t') =>
        match find (fun cl => caught_by (fst cl) e) clauses with
        | Some cl => snd cl e t'
        | None => (Raise e, t')
        end
    end.

(** ** Python values: what [response.json()] returns

    A [float] is kept as the text [repr] prints for it, which determines
    the float; [200.0], [0.0] and [-0.0] are the only floats the code
    compares. A dict is its items in order, with keys that are strings. *)

#[local] Unset Elimination Schemes.
Inductive pyval : Set :=
| PyNone
| PyBool (b : bool)
| PyInt (n : Z)
| PyFloat (repr : string)
| PyStr (s : string)
| PyList (items : list pyval)
| PyDict (items : list (string * pyval)).
#[local] Set Elimination Schemes.

Module Py.

Definition squote : ascii := "039".
Definition dquote : ascii := "034".
Definition backslash : ascii := "092".

Fixpoint contains (c : ascii) (s : string) : bool :=
  match s with
  | EmptyString => false
  | String c' r => Ascii.eqb c c' || contains c r
  end.

Definition hex_digit (n : nat) : ascii :=
  nth n (list_ascii_of_string "0123456789abcdef") "0"%char.

(** One character of [repr(s)] inside the quotes [q]. *)
Definition repr_char (q c : ascii) : string :=
  let n := nat_of_ascii c in
  if Ascii.eqb c q || Ascii.eqb c backslash then String backslash (String c EmptyString)
  else if (n =? 9)%nat then String backslash "t"
  else if (n =? 10)%nat then String backslash "n"
  else if (n =? 13)%nat then String backslash "r"
  else if ((n <? 32) || (127 <=? n) && (n <=? 160) || (n =? 173))%nat
  then String backslash (String "x" (String (hex_digit (n / 16)) (String (hex_digit (n mod 16)) EmptyString)))
  else String c EmptyString.

Fixpoint repr_chars (q : ascii) (s : string) : string :=
  match s with
  | EmptyString => EmptyString
  | String c r => repr_char q c ++ repr_chars q r
  end.

(** [repr(s)] for a [str]: double quotes only when [s] has a single quote
    and no double quote. *)
Definition repr_str (s : string) : string :=
  let q := if contains squote s && negb (contains dquote s) then dquote else squote in
  String q (repr_chars q s ++ String q EmptyString).

(** [repr(v)] *)
Fixpoint repr (v : pyval) : string :=
  match v with
  | PyNone => "None"
  | PyBool b => if b then "True" else "False"
  | PyInt n => PyStr.of_int n
  | PyFloat r => r
  | PyStr s => repr_str s
  | PyList items => "[" ++ PyStr.join ", " (map repr items) ++ "]"
  | PyDict items =>
      "{" ++ PyStr.join ", "
               (map (fun kv => repr_str (fst kv) ++ ": " ++ repr (snd kv)) items)
          ++ "}"
  end.

(** [str(v)], as an f-string formats [{v}]. *)
Definition str (v : pyval) : string :=
  match v with
  | PyStr s => s
  | _ => repr v
  end.

(** [type(v).__name__] *)
Definition type_name (v : pyval) : string :=
  match v with
  | PyNone => "NoneType"
  | PyBool _ => "bool"
  | PyInt _ => "int"
  | PyFloat _ => "float"
  | PyStr _ => "str"
  | PyList _ => "list"
  | PyDict _ => "dict"
  end.

(** [bool(v)] *)
Definition truthy (v : pyval) : bool :=
  match v with
  | PyNone => false
  | PyBool b => b
  | PyInt n => negb (n =? 0)
  | PyFloat r => negb (String.eqb r "0.0" || String.eqb r "-0.0")
  | PyStr s => negb (PyStr.is_empty s)
  | PyList items => match items with [] => false | _ => true end
  | PyDict items => match items with [] => false | _ => true end
  end.

Definition is_none (v : pyval) : bool :=
  match v with PyNone => true | _ => false end.

(** [v == n] for an [int] literal [n] with [|n| < 10^16]. *)
Definition eq_int (v : pyval) (n : Z) : bool :=
  match v with
  | PyBool b => (if b then 1 else 0) =? n
  | PyInt m => m =? n
  | PyFloat r => String.eqb r (PyStr.of_int n ++ ".0")
  | _ => false
  end.

(** [d[key]] for the items of a dict, [None] when [key not in d]. *)
Fixpoint lookup (key : string) (items : list (string * pyval)) : option pyval :=
  match items with
  | [] => None
  | (k, v) :: r => if String.eqb k key then Some v else lookup key r
  end.

(** [v.get(key, default)] *)
Definition get (v : pyval) (key : string) (default : pyval) : result pyval :=
  match v with
  | PyDict items =>
      match lookup key items with
      | Some x => Return x
      | None => Return default
      end
  | _ => Raise (Exn AttributeError
                  ("'" ++ type_name v ++ "' object has no attribute 'get'"))
  end.

(** [len(v)] *)
Definition len (v : pyval) : result Z :=
  match v with
  | PyStr s => Return (Z.of_nat (String.length s))
  | PyList items => Return (Z.of_nat (List.length items))
  | PyDict items => Return (Z.of_nat (List.length items))
  | _ => Raise (Exn TypeError
                  ("object of type '" ++ type_name v ++ "' has no len()"))
  end.

(** [v[0]] *)
Definition getitem0 (v : pyval) : result pyval :=
  match v with
  | PyStr (String c _) => Return (PyStr (String c EmptyString))
  | PyStr EmptyString => Raise (Exn IndexError "string index out of range")
  | PyList (x :: _) => Return x
  | PyList [] => Raise (Exn IndexError "list index out of range")
  | PyDict _ => Raise (Exn KeyError "0")
  | _ => Raise (Exn TypeError
                  ("'" ++ type_name v ++ "' object is not subscriptable"))
  end.

(** [bool(s)] for an optional [str]. *)
Definition truthy_opt (s : option string) : bool :=
  match s with
  | Some s' => negb (PyStr.is_empty s')
  | None => false
  end.

(** [s or d] for an optional [str] [s]. *)
Definition or_else (s : option string) (d : string) : string :=
  match s with
  | Some s' => if PyStr.is_empty s' then d else s'
  | None => d
  end.

End Py.

(** [safe_get_nested(data, *keys, default=default)] *)
Fixpoint safe_get_nested (data : pyval) (keys : list string) (default : pyval)
  : pyval :=
  match keys with
  | [] => data
  | key :: keys' =>
      match data with
      | PyDict items =>
          match Py.lookup key items with
          | Some current => safe_get_nested current keys' default
          | None => default
          end
      | _ => default
      end
  end.

(** ** utils.py: [format_uptime] on a float read from a file

    [float(text)] also accepts "inf", "-inf", "infinity" and "nan".  For
    those [int(seconds)], the first statement of [format_uptime], raises:
    [OverflowError] for an infinity and [ValueError] for a NaN. *)

Inductive pyfloat : Set :=
| Finite (q : Q)
| Inf (negative : bool)
| NaN.

(** [int(x)] for a [float] [x]. *)
Definition py_int_float (x : pyfloat) : result Z :=
  match x with
  | Finite q => Return (py_int q)
  | Inf _ => Raise (Exn OverflowError "cannot convert float infinity to integer")
  | NaN => Raise (Exn ValueError "cannot convert float NaN to integer")
  end.

(** [format_uptime(seconds)] for a [float] as [get_uptime] passes it; on
    a finite one it is [format_uptime]. *)
Definition format_uptime_float (seconds : pyfloat) : result string :=
  match py_int_float seconds with
  | Return seconds => Return (PyStr.join " " (uptime_parts seconds))
  | Raise e => Raise e
  end.

(** ** The environment

    What the world outside the program answers.  An answer may depend on
    everything that happened before (the trace), so two calls of one probe
    need not agree. *)

(** A [requests.Response], as far as [get_weather] uses it. *)
Record Response : Set := {
  raise_for_status : result unit;
  json : result pyval
}.

Record Env : Type := {
  (** [datetime.datetime.now().strftime("%Y-%m-%d %H:%M:%S")] *)
  strftime_now : Trace -> string;
  (** [template.format(city=city, api_key=api_key)] *)
  str_format : string -> string -> string -> result string;
  (** [requests.get(url, timeout=timeout)] *)
  requests_get : Trace -> string -> Z -> result Response;
  (** [subprocess.run(["ip", "route"], capture_output=True, text=True,
      timeout=5, check=True).stdout] *)
  subprocess_run : Trace -> result string;
  (** the [with socket.socket(...)] block of [get_ip_address] *)
  socket_getsockname : Trace -> result string;
  (** [socket.gethostbyname(socket.gethostname())] *)
  gethostbyname : Trace -> result string;
  (** [Path("/proc/uptime").exists()] *)
  uptime_exists : Trace -> result bool;
  (** [float(f.readline().split()[0])] on the opened uptime file *)
  uptime_read : Trace -> result pyfloat
}.

(** ** config.py: what the properties of a [Config] evaluate to *)

Record Config : Type := {
  weather_api_key : option string;
  default_city : string;
  timeout : result Z;
  weather_url_template : string
}.

(** ** core.py *)

Section Core.

Variable env : Env.
Variable config : Config.

Definition get_ip_address : M string :=
  try_except
    (call SocketProbe (socket_getsockname env))
    [([Exception], fun e =>
        log WARNING ("Failed to get IP via socket: " ++ str_of e) ;;
        try_except
          (call HostnameLookup (gethostbyname env))
          [([Exception], fun e =>
              raise (Exn SystemInfoError
                       ("Cannot determine IP address: " ++ str_of e)))])].

(** The [for line in ...] loop of [get_router_ip]. *)
Fixpoint default_route (lines : list string) : option string :=
  match lines with
  | [] => None
  | line :: lines' =>
      if PyStr.startswith (PyStr.strip line) "default"
      then
        let parts := PyStr.split line in
        if (3 <=? List.length parts)%nat
        then nth_error parts 2
        else default_route lines'
      else default_route lines'
  end.

Definition get_router_ip : M (option string) :=
  try_except
    (stdout <- call RunIpRoute (subprocess_run env) ;;
     ret (default_route (PyStr.splitlines stdout)))
    [([SubprocessError; TimeoutExpired], fun e =>
        log WARNING ("Failed to get router IP: " ++ str_of e) ;;
        ret None)].

Definition get_current_time : M string :=
  fun t => (Return (strftime_now env t), Now :: t).

Definition get_uptime : M string :=
  found <- call UptimeExists (uptime_exists env) ;;
  if negb found
  then raise (Exn SystemInfoError
                "Cannot read system uptime: /proc/uptime not found")
  else
    try_except
      (uptime_seconds <- call UptimeRead (uptime_read env) ;;
       lift (format_uptime_float uptime_seconds))
      [([OSError; ValueError; IndexError], fun e =>
          raise (Exn SystemInfoError ("Cannot parse uptime: " ++ str_of e)))].

(** The degree sign, U+00B0. *)
Definition degree : string := String "176" EmptyString.

Definition get_weather (city : option string) : M string :=
  let city := Py.or_else city (default_city config) in
  let api_key := weather_api_key config in
  if negb (Py.truthy_opt api_key)
  then raise (Exn WeatherAPIError "Weather API key not configured")
  else
    let api_key := match api_key with Some k => k | None => EmptyString end in
    url <- lift (str_format env (weather_url_template config) city api_key) ;;
    log DEBUG ("url=" ++ Py.repr_str url) ;;
    try_except
      (seconds <- lift (timeout config) ;;
       response <- call (HttpGet url seconds)
                     (fun t => requests_get env t url seconds) ;;
       lift (raise_for_status response) ;;
       data <- lift (json response) ;;
       log DEBUG ("data=" ++ Py.repr data) ;;
       cod <- lift (Py.get data "cod" PyNone) ;;
       if negb (Py.eq_int cod 200)
       then
         error_msg <- lift (Py.get data "message" (PyStr "Unknown API error")) ;;
         raise (Exn WeatherAPIError ("Weather API error: " ++ Py.str error_msg))
       else
         let temp := safe_get_nested data ["main"; "temp"] PyNone in
         weather_list <- lift (Py.get data "weather" (PyList [])) ;;
         description <-
           (if Py.truthy weather_list
            then
              n <- lift (Py.len weather_list) ;;
              if 0 <? n
              then
                first <- lift (Py.getitem0 weather_list) ;;
                lift (Py.get first "description" PyNone)
              else ret PyNone
            else ret PyNone) ;;
         if Py.is_none temp || Py.is_none description
         then raise (Exn WeatherAPIError "Invalid weather data format")
         else ret (city ++ ": " ++ Py.str temp ++ degree ++ "C, "
                        ++ Py.str description))
      [([RequestException], fun e =>
          raise (Exn WeatherAPIError
                   ("Failed to fetch weather data: " ++ str_of e)));
       ([KeyError; IndexError; ValueError], fun e =>
          raise (Exn WeatherAPIError
                   ("Failed to parse weather data: " ++ str_of e)))].

End Core.

(** The methods [get_all_info] calls through [self]; a test may replace
    any of them. *)
Record Probes : Type := {
  probe_current_time : M string;
  probe_weather : option string -> M string;
  probe_ip_address : M string;
  probe_router_ip : M (option string);
  probe_uptime : M string
}.

(** A [SystemInfo] object with the methods of the class. *)
Definition SystemInfo (env : Env) (config : Config) : Probes := {|
  probe_current_time := get_current_time env;
  probe_weather := get_weather env config;
  probe_ip_address := get_ip_address env;
  probe_router_ip := get_router_ip env;
  probe_uptime := get_uptime env
|}.

(** A [dict] from [str] to [str]: its items in insertion order. *)
Definition dict : Set := list (string * string).

(** [d[key] = value]: the value is replaced where the key is, and a new
    key goes last. *)
Fixpoint dict_set (d : dict) (key value : string) : dict :=
  match d with
  | [] => [(key, value)]
  | (k, v) :: r =>
      if String.eqb k key then (k, value) :: r
      else (k, v) :: dict_set r key value
  end.

Fixpoint dict_get (d : dict) (key : string) : option string :=
  match d with
  | [] => None
  | (k, v) :: r => if String.eqb k key then Some v else dict_get r key
  end.

(** [list(d.keys())] *)
Definition keys (d : dict) : list string := map fst d.

(** [router_ip if router_ip else "Not available"] *)
Definition router_ip_text (router_ip : option string) : string :=
  match router_ip with
  | Some ip => if PyStr.is_empty ip then "Not available" else ip
  | None => "Not available"
  end.

Definition get_all_info (self : Probes) (include_weather : bool) : M dict :=
  now <- probe_current_time self ;;
  let info : dict := [("Date/Time", now)] in
  info <-
    (if include_weather
     then
       try_except
         (weather <- probe_weather self None ;;
          ret (dict_set info "Weather" weather))
         [([WeatherAPIError], fun e =>
             let info := dict_set info "Weather" ("Error: " ++ str_of e) in
             log ERROR ("Failed to get weather: " ++ str_of e) ;;
             ret info)]
     else ret info) ;;
  info <-
    try_except
      (ip <- probe_ip_address self ;;
       ret (dict_set info "IP Address" ip))
      [([SystemInfoError], fun e =>
          let info := dict_set info "IP Address" ("Error: " ++ str_of e) in
          log ERROR ("Failed to get IP address: " ++ str_of e) ;;
          ret info)] ;;
  info <-
    try_except
      (router_ip <- probe_router_ip self ;;
       ret (dict_set info "Router IP" (router_ip_text router_ip)))
      [([Exception], fun e =>
          let info := dict_set info "Router IP" ("Error: " ++ str_of e) in
          log ERROR ("Failed to get router IP: " ++ str_of e) ;;
          ret info)] ;;
  info <-
    try_except
      (uptime <- probe_uptime self ;;
       ret (dict_set info "Uptime" uptime))
      [([SystemInfoError], fun e =>
          let info := dict_set info "Uptime" ("Error: " ++ str_of e) in
          log ERROR ("Failed to get uptime: " ++ str_of e) ;;
          ret info)] ;;
  ret info.

(** ** cli.py: how [main] obtains [info_data]

    [no_weather] and [city] are [parsed_args.no_weather] and
    [parsed_args.city]. *)
Definition main_info_data (sys_info : Probes) (no_weather : bool)
    (city : option string) : M dict :=
  let include_weather := negb no_weather in
  if include_weather && Py.truthy_opt city
  then
    try_except
      (info_data <- get_all_info sys_info false ;;
       weather_info <- probe_weather sys_info city ;;
       ret (dict_set info_data "Weather" weather_info))
      [([Exception], fun e =>
          info_data <- get_all_info sys_info false ;;
          ret (dict_set info_data "Weather" ("Error: " ++ str_of e)))]
  else get_all_info sys_info include_weather.

(** ** Notions the statements use *)

(** The number of [requests.get] calls a trace records. *)
Fixpoint http_calls (t : Trace) : nat :=
  match t with
  | [] => O
  | HttpGet _ _ :: t' => S (http_calls t')
  | _ :: t' => http_calls t'
  end.

(** [get_weather(city)], started after the effects [t], has an API key,
    builds its URL, and its request is answered by a response that passes
    [raise_for_status] and whose body parses to [data]. *)
Definition transported (env : Env) (config : Config) (city : option string)
    (t : Trace) (data : pyval) : Prop :=
  exists key url seconds response,
    weather_api_key config = Some key /\ key <> EmptyString /\
    str_format env (weather_url_template config)
      (Py.or_else city (default_city config)) key = Return url /\
    timeout config = Return seconds /\
    requests_get env (Log DEBUG ("url=" ++ Py.repr_str url) :: t) url seconds
      = Return response /\
    raise_for_status response = Return tt /\
    json response = Return data.

(** The body's status code is the success sentinel: [data["cod"] == 200]. *)
Definition cod_is_200 (data : pyval) : Prop :=
  exists cod, Py.get data "cod" PyNone = Return cod /\ Py.eq_int cod 200 = true.

(** The [weather] field of the body is missing or empty (an empty list,
    [null], any value that counts as false), or it is a list whose first
    element is an object. *)
Definition weather_shape_ok (data : pyval) : Prop :=
  match Py.get data "weather" (PyList []) with
  | Return weather_list =>
      if Py.truthy weather_list
      then match weather_list with
           | PyList (PyDict _ :: _) => True
           | _ => False
           end
      else True
  | Raise _ => False
  end.

(** The description of the first element of the weather list, [PyNone]
    when the list is missing or empty or the element has none. *)
Definition first_description (data : pyval) : pyval :=
  match Py.get data "weather" (PyList []) with
  | Return (PyList (PyDict first :: _)) =>
      match Py.lookup "description" first with
      | Some d => d
      | None => PyNone
      end
  | _ => PyNone
  end.

(** A line the loop of [get_router_ip] returns from. *)
Definition selected (line : string) : bool :=
  PyStr.startswith (PyStr.strip line) "default"
  && (3 <=? List.length (PyStr.split line))%nat.

(** The keys of the information map, in order. *)
Definition expected_keys (include_weather : bool) : list string :=
  "Date/Time" :: (if include_weather then ["Weather"] else [])
    ++ ["IP Address"; "Router IP"; "Uptime"].

(** The information map with the given entries. *)
Definition info_map (include_weather : bool) (now ew ei er eu : string) : dict :=
  ("Date/Time", now) :: (if include_weather then [("Weather", ew)] else [])
    ++ [("IP Address", ei); ("Router IP", er); ("Uptime", eu)].

(** How the aggregator shows the outcome of a probe whose value [show]
    turns into text and whose [except] clause names [classes]: [None]
    when the clause does not catch the exception. *)
Definition entry_of {A : Type} (classes : list exn_class) (show : A -> string)
    (r : result A) : option string :=
  match r with
  | Return v => Some (show v)
  | Raise e => if caught_by classes e then Some ("Error: " ++ str_of e) else None
  end.

(** The entry of a probe with the outcome [r]: its value, or
    "Error: <message>". *)
Definition shown (r : result string) : string :=
  match r with
  | Return v => v
  | Raise e => "Error: " ++ str_of e
  end.

(** The same for the router probe, whose value is optional. *)
Definition router_shown (r : result (option string)) : string :=
  match r with
  | Return v => router_ip_text v
  | Raise e => "Error: " ++ str_of e
  end.

(** The probe [m] has the outcome [r] whenever it runs. *)
Definition outcome {A : Type} (m : M A) (r : result A) : Prop :=
  forall t, fst (m t) = r.

(** [r] is a value, or an exception of one of [classes]. *)
Definition declared {A : Type} (classes : list exn_class) (r : result A) : Prop :=
  match r with
  | Return _ => True
  | Raise e => caught_by classes e = true
  end.

(** Every probe that [get_all_info(include_weather)] calls returns, or
    raises an error that its [except] clause catches; the clock only
    returns. *)
Definition well_behaved (self : Probes) (include_weather : bool) : Prop :=
  (forall t, exists now, fst (probe_current_time self t) = Return now) /\
  (include_weather = true ->
   forall t, declared [WeatherAPIError] (fst (probe_weather self None t))) /\
  (forall t, declared [SystemInfoError] (fst (probe_ip_address self t))) /\
  (forall t, declared [Exception] (fst (probe_router_ip self t))) /\
  (forall t, declared [SystemInfoError] (fst (probe_uptime self t))).

(** ** Concrete environments, after the fixtures of the test suite *)

(** [mock_config] of [tests/conftest.py]. *)
Definition mock_config : Config := {|
  weather_api_key := Some "test_api_key";
  default_city := "TestCity";
  timeout := Return 10;
  weather_url_template :=
    "http://api.test.com/weather?q={city}&appid={api_key}&units=metric"
|}.

(** A body with [cod=200], [main.temp=25.5] and the description
    "clear sky". *)
Definition clear_sky : pyval :=
  PyDict [("cod", PyInt 200);
          ("main", PyDict [("temp", PyFloat "25.5")]);
          ("weather", PyList [PyDict [("description", PyStr "clear sky")]])].

(** An environment in which every probe succeeds; the weather request is
    answered by [body]. *)
Definition mock_env (body : result pyval) : Env := {|
  strftime_now := fun _ => "2023-12-01 12:00:00";
  str_format := fun _ city api_key =>
    Return ("http://api.test.com/weather?q=" ++ city ++ "&appid=" ++ api_key
              ++ "&units=metric");
  requests_get := fun _ _ _ =>
    Return {| raise_for_status := Return tt; json := body |};
  subprocess_run := fun _ => Return "default via 192.168.1.1 dev eth0 proto dhcp";
  socket_getsockname := fun _ => Return "192.168.1.100";
  gethostbyname := fun _ => Return "127.0.0.1";
  uptime_exists := fun _ => Return true;
  uptime_read := fun _ => Return (Finite (1234567 # 100))
|}.

Definition newline : string := String "010" EmptyString.

(** [mock_ip_route_output] of [tests/conftest.py]. *)
Definition mock_ip_route_output : string :=
  "default via 192.168.1.1 dev eth0 proto dhcp metric 100" ++ newline ++
  "10.0.0.0/8 dev docker0 proto kernel scope link src 172.17.0.1 linkdown"
  ++ newline ++
  "192.168.1.0/24 dev eth0 proto kernel scope link src 192.168.1.100 metric 100".

(** [env] with another answer of the routing command. *)
Definition with_ip_route (answer : result string) (env : Env) : Env := {|
  strftime_now := strftime_now env;
  str_format := str_format env;
  requests_get := requests_get env;
  subprocess_run := fun _ => answer;
  socket_getsockname := socket_getsockname env;
  gethostbyname := gethostbyname env;
  uptime_exists := uptime_exists env;
  uptime_read := uptime_read env
|}.

(** [config] with another weather API key. *)
Definition with_api_key (key : option string) (config : Config) : Config := {|
  weather_api_key := key;
  default_city := default_city config;
  timeout := timeout config;
  weather_url_template := weather_url_template config
|}.

(** A body whose fields come in another order, with an [int] temperature
    and more than the description in the weather element. *)
Definition light_rain : pyval :=
  PyDict [("weather", PyList [PyDict [("id", PyInt 800);
                                      ("description", PyStr "light rain")]]);
          ("main", PyDict [("temp", PyInt (-3))]);
          ("cod", PyInt 200)].

(** A body with status code 200, no temperature, and a weather list whose
    first element is [null]. *)
Definition null_weather : pyval :=
  PyDict [("cod", PyInt 200); ("weather", PyList [PyNone])].

(** What [Response.json()] of requests 2.27 and later raises on a body
    that is not JSON: [requests.exceptions.JSONDecodeError], which
    [requests/exceptions.py] declares as
    [class JSONDecodeError(InvalidJSONError, CompatJSONDecodeError)] with
    [class InvalidJSONError(RequestException)]. *)
Definition not_json : exn :=
  Exn RequestsJSONDecodeError "Expecting value: line 1 column 1 (char 0)".

(** The patches of [test_get_all_info_with_errors] in
    [tests/test_core.py]. *)
Definition patched_with_errors : Probes := {|
  probe_current_time := ret "2023-12-01 12:00:00";
  probe_weather := fun _ => raise (Exn WeatherAPIError "Weather error");
  probe_ip_address := raise (Exn SystemInfoError "IP error");
  probe_router_ip := ret None;
  probe_uptime := raise (Exn SystemInfoError "Uptime error")
|}.

(** ** More text built-ins, for [format_table] *)

Module PyText.

(** [s.ljust(width)]: spaces are added on the right up to [width]; a
    longer [s] is left as it is. *)
Definition spaces (n : nat) : string := string_of_list_ascii (repeat " "%char n).

Definition ljust (s : string) (width : nat) : string :=
  s ++ spaces (width - String.length s).

(** [c * n] for a one-character string [c]. *)
Definition times (c : ascii) (n : nat) : string :=
  string_of_list_ascii (repeat c n).

(** [sub in s] *)
Fixpoint has_sub (sub s : string) : bool :=
  String.prefix sub s ||
  match s with
  | EmptyString => false
  | String _ r => has_sub sub r
  end.

End PyText.

(** ** cli.py: [Colors] and [format_table] *)

Module Colors.

Definition ESC : ascii := "027".
Definition CYAN : string := String ESC "[96m".
Definition GREEN : string := String ESC "[92m".
Definition YELLOW : string := String ESC "[93m".
Definition RED : string := String ESC "[91m".
Definition RESET : string := String ESC "[0m".
Definition BOLD : string := String ESC "[1m".

End Colors.

(** The [header] and the [separator] of the table. *)
Definition table_header (label_width value_width : nat) (use_colors : bool)
  : string :=
  if use_colors
  then Colors.BOLD ++ Colors.CYAN ++ PyText.ljust "Item" label_width ++ " | "
         ++ PyText.ljust "Value" value_width ++ Colors.RESET
  else PyText.ljust "Item" label_width ++ " | " ++ PyText.ljust "Value" value_width.

Definition table_separator (label_width value_width : nat) (use_colors : bool)
  : string :=
  if use_colors
  then Colors.BOLD ++ PyText.times "-" (label_width + value_width + 3)
         ++ Colors.RESET
  else PyText.times "-" (label_width + value_width + 3).

(** The line the loop of [format_table] appends for one item. *)
Definition table_row (label_width value_width : nat) (use_colors : bool)
    (item : string * string) : string :=
  let (label, value) := item in
  if use_colors
  then
    let color_label :=
      if PyText.has_sub "Error:" value
      then Colors.RED ++ PyText.ljust label label_width ++ Colors.RESET
      else Colors.GREEN ++ PyText.ljust label label_width ++ Colors.RESET in
    let color_value :=
      if PyText.has_sub "Error:" value
      then Colors.RED ++ PyText.ljust value value_width ++ Colors.RESET
      else Colors.YELLOW ++ PyText.ljust value value_width ++ Colors.RESET in
    color_label ++ " | " ++ color_value
  else PyText.ljust label label_width ++ " | " ++ PyText.ljust value value_width.

(** [max(len(str(key)) for key in data.keys())], for a [data] that is not
    empty. *)
Definition label_width_of (data : dict) : nat :=
  list_max (map (fun item => String.length (fst item)) data).

Definition value_width_of (data : dict) : nat :=
  list_max (map (fun item => String.length (snd item)) data).

(** The [lines] of [format_table] before they are joined, for a [data]
    that is not empty. *)
Definition table_lines (data : dict) (use_colors : bool) : list string :=
  let label_width := label_width_of data in
  let value_width := value_width_of data in
  let lines := [] in
  let header := table_header label_width value_width use_colors in
  let separator := table_separator label_width value_width use_colors in
  let lines := list_append lines header in
  let lines := list_append lines separator in
  fold_left
    (fun lines item =>
       list_append lines (table_row label_width value_width use_colors item))
    data lines.

(** [format_table(data, use_colors)] for a map from [str] to [str], as
    [main] calls it. *)
Definition format_table (data : dict) (use_colors : bool) : string :=
  match data with
  | [] => "No system information available"
  | _ => PyStr.join newline (table_lines data use_colors)
  end.

(** ** utils.py: [setup_logging]

    The logger named "sysstatus" is one object for the whole process; its
    state is its level and its handlers.  The level names are those
    [main] can pass: the choices of [--log-level], and the default "INFO"
    of [setup_logging]; [getattr(logging, name)] is their number. *)

Module Logging.

Inductive level_name : Set := DEBUG | INFO | WARNING | ERROR | CRITICAL.

(** [getattr(logging, level.upper())] *)
Definition level_number (name : level_name) : Z :=
  match name with
  | DEBUG => 10
  | INFO => 20
  | WARNING => 30
  | ERROR => 40
  | CRITICAL => 50
  end.

Inductive stream : Set := Stderr | Stdout.

(** A [logging.StreamHandler] with its formatter. *)
Record Handler : Set := { handler_stream : stream; handler_format : string }.

Record Logger : Set := { level : Z; handlers : list Handler }.

(** [logging.getLogger("sysstatus")] in a fresh process. *)
Definition fresh : Logger := {| level := 0; handlers := [] |}.

Definition setup_logging (name : level_name) (logger : Logger) : Logger :=
  let logger := {| level := level_number name; handlers := handlers logger |} in
  match handlers logger with
  | [] =>
      let handler :=
        {| handler_stream := Stderr;
           handler_format :=
             "%(asctime)s - %(name)s - %(levelname)s - %(message)s" |} in
      {| level := level logger; handlers := list_append (handlers logger) handler |}
  | _ => logger
  end.

End Logging.

(** ** cli.py: [main], after the arguments are parsed *)

Module Args.

(** The [parsed_args] of [main]. *)
Record t : Set := {
  no_weather : bool;
  no_colors : bool;
  city : option string;
  config : option string;
  log_level : Logging.level_name
}.

End Args.

Module Terminal.

(** [sys.stdout], as far as [main] uses it.  Both calls are inside the
    [try] block of [main], and both raise when the stream is closed. *)
Record t : Set := {
  (** [sys.stdout.isatty()] *)
  isatty : result bool;
  (** [print(text)] *)
  print : string -> result unit
}.

End Terminal.

(** What a run of [main] leaves: the value it returns or the exception
    that leaves it; [printed_out], the texts of the [print] calls to the
    standard output that returned; [printed_err], the texts [main] itself
    writes with [print(..., file=sys.stderr)]; the logger; and the trace.

    The records of the logger are not in [printed_err], though its handler
    writes to [sys.stderr] too: what was logged is the [Log] events of the
    trace, and which of them the handler writes depends on the level of
    the logger. *)
Record Outcome : Type := {
  exit_code : result Z;
  printed_out : list string;
  printed_err : list string;
  final_logger : Logging.Logger;
  final_trace : Trace
}.

(** The [except] clauses of [main]; [print(..., file=sys.stderr)] is taken
    to return. *)
Definition main_except (e : exn) (logger : Logging.Logger) (t : Trace) : Outcome :=
  if isinstance e KeyboardInterrupt
  then {| exit_code := Return 1; printed_out := [];
          printed_err := [newline ++ "Operation cancelled by user"];
          final_logger := logger; final_trace := t |}
  else if isinstance e Exception
  then {| exit_code := Return 1; printed_out := [];
          printed_err := ["Error: " ++ str_of e];
          final_logger := logger;
          final_trace := Log ERROR ("Unexpected error: " ++ str_of e) :: t |}
  else {| exit_code := Raise e; printed_out := []; printed_err := [];
          final_logger := logger; final_trace := t |}.

(** [main], from [setup_logging(parsed_args.log_level)] on.  [new_config]
    is what [Config(parsed_args.config)] gives, and [terminal] is
    [sys.stdout].  [SystemInfo(config)] sets the logger up once more, with
    the default level.  [sys.stdout.isatty()] is called only without
    [--no-colors]. *)
Definition main (new_config : result Config) (env : Env) (terminal : Terminal.t)
    (parsed_args : Args.t) (logger : Logging.Logger) (t : Trace) : Outcome :=
  let logger := Logging.setup_logging (Args.log_level parsed_args) logger in
  match new_config with
  | Raise e => main_except e logger t
  | Return config =>
      let logger := Logging.setup_logging Logging.INFO logger in
      let sys_info := SystemInfo env config in
      match main_info_data sys_info (Args.no_weather parsed_args)
              (Args.city parsed_args) t with
      | (Return info_data, t') =>
          match (if Args.no_colors parsed_args then Return false
                 else Terminal.isatty terminal) with
          | Return use_colors =>
              let formatted_output := format_table info_data use_colors in
              match Terminal.print terminal formatted_output with
              | Return _ =>
                  {| exit_code := Return 0; printed_out := [formatted_output];
                     printed_err := [];
                     final_logger := logger; final_trace := t' |}
              | Raise e => main_except e logger t'
              end
          | Raise e => main_except e logger t'
          end
      | (Raise e, t') => main_except e logger t'
      end
  end.

(** ** More notions the statements use *)

(** [data[key1][key2]...] exists and is [v]: every value on the way is an
    object that has the next key. *)
Inductive at_path : pyval -> list string -> pyval -> Prop :=
| at_path_here (v : pyval) : at_path v [] v
| at_path_key (items : list (string * pyval)) (key : string)
    (keys : list string) (v w : pyval) :
    Py.lookup key items = Some v ->
    at_path v keys w ->
    at_path (PyDict items) (key :: keys) w.

(** The number of times a trace records an event that [p] selects. *)
Fixpoint count_events (p : event -> bool) (t : Trace) : nat :=
  match t with
  | [] => O
  | ev :: t' => (if p ev then 1 else 0) + count_events p t'
  end.

Definition is_now (ev : event) : bool :=
  match ev with Now => true | _ => false end.

Definition is_http (ev : event) : bool :=
  match ev with HttpGet _ _ => true | _ => false end.

Definition is_run (ev : event) : bool :=
  match ev with RunIpRoute => true | _ => false end.

(** The environment raises only what the [except] clauses of the probes
    other than the weather probe catch: any [Exception] from the socket,
    the resolver and the routing command, and an [OSError], a [ValueError]
    or an [IndexError] from reading the uptime file.  And two things that
    no clause catches do not happen: the test whether the uptime file
    exists, which is outside the [try], raises nothing, and the number
    read from the file is not an infinity, for which [format_uptime]
    raises an [OverflowError]. *)
Definition local_env_ok (env : Env) : Prop :=
  (forall t, declared [Exception] (socket_getsockname env t)) /\
  (forall t, declared [Exception] (gethostbyname env t)) /\
  (forall t, declared [Exception] (subprocess_run env t)) /\
  (forall t, exists found, uptime_exists env t = Return found) /\
  (forall t, declared [OSError; ValueError; IndexError] (uptime_read env t)) /\
  (forall t negative, uptime_read env t <> Return (Inf negative)).

(** For the configured template and key the URL can be built, whatever
    the city; reading the timeout, and the request to such a URL with the
    configured timeout, raise only what [get_weather] turns into a
    [WeatherAPIError]; and a body that arrives is an object whose weather
    field [get_weather] can read. *)
Definition weather_env_ok (env : Env) (config : Config) : Prop :=
  (forall city key,
      weather_api_key config = Some key ->
      exists url,
        str_format env (weather_url_template config) city key = Return url) /\
  declared [RequestException; KeyError; IndexError; ValueError] (timeout config) /\
  (forall t city key url seconds,
      weather_api_key config = Some key ->
      str_format env (weather_url_template config) city key = Return url ->
      timeout config = Return seconds ->
      match requests_get env t url seconds with
      | Raise e =>
          caught_by [RequestException; KeyError; IndexError; ValueError] e = true
      | Return response =>
          declared [RequestException; KeyError; IndexError; ValueError]
            (raise_for_status response) /\
          match json response with
          | Raise e =>
              caught_by [RequestException; KeyError; IndexError; ValueError] e
              = true
          | Return data =>
              (exists items, data = PyDict items) /\ weather_shape_ok data
          end
      end).

(** ** More environments and arguments, after the tests *)

(** The body of [test_get_weather_api_error_response]. *)
Definition city_not_found : pyval :=
  PyDict [("cod", PyInt 404); ("message", PyStr "city not found")].

(** A machine without network, without the [ip] program and without
    [/proc/uptime]; the name of the host resolves, as in
    [test_get_ip_address_fallback_to_hostname]. *)
Definition offline_env : Env := {|
  strftime_now := fun _ => "2023-12-01 12:00:00";
  str_format := fun _ city api_key =>
    Return ("http://api.test.com/weather?q=" ++ city ++ "&appid=" ++ api_key
              ++ "&units=metric");
  requests_get := fun _ _ _ =>
    Raise (Exn RequestsConnectionError "Network is unreachable");
  subprocess_run := fun _ =>
    Raise (Exn FileNotFoundError "[Errno 2] No such file or directory: 'ip'");
  socket_getsockname := fun _ => Raise (Exn Exception "Network error");
  gethostbyname := fun _ => Return "127.0.0.1";
  uptime_exists := fun _ => Return false;
  uptime_read := fun _ => Raise (Exn OSError "Permission denied")
|}.

(** [env] with another answer of the socket. *)
Definition with_socket (answer : result string) (env : Env) : Env := {|
  strftime_now := strftime_now env;
  str_format := str_format env;
  requests_get := requests_get env;
  subprocess_run := subprocess_run env;
  socket_getsockname := fun _ => answer;
  gethostbyname := gethostbyname env;
  uptime_exists := uptime_exists env;
  uptime_read := uptime_read env
|}.

(** [env] where [/proc/uptime] exists and reading it gives [answer]. *)
Definition with_uptime (answer : result pyfloat) (env : Env) : Env := {|
  strftime_now := strftime_now env;
  str_format := str_format env;
  requests_get := requests_get env;
  subprocess_run := subprocess_run env;
  socket_getsockname := socket_getsockname env;
  gethostbyname := gethostbyname env;
  uptime_exists := fun _ => Return true;
  uptime_read := fun _ => answer
|}.

(** An environment faithful to [str.format] on a template that is not
    well formed: with the template "{" it raises, with any other it does
    what [mock_env] does. *)
Definition strict_format_env (body : result pyval) : Env := {|
  strftime_now := strftime_now (mock_env body);
  str_format := fun template city api_key =>
    if String.eqb template "{"
    then Raise (Exn ValueError "Single '{' encountered in format string")
    else str_format (mock_env body) template city api_key;
  requests_get := requests_get (mock_env body);
  subprocess_run := subprocess_run (mock_env body);
  socket_getsockname := socket_getsockname (mock_env body);
  gethostbyname := gethostbyname (mock_env body);
  uptime_exists := uptime_exists (mock_env body);
  uptime_read := uptime_read (mock_env body)
|}.

(** [config] with another value of the [timeout] property. *)
Definition with_timeout (answer : result Z) (config : Config) : Config := {|
  weather_api_key := weather_api_key config;
  default_city := default_city config;
  timeout := answer;
  weather_url_template := weather_url_template config
|}.

(** [config] with another default city. *)
Definition with_default_city (city : string) (config : Config) : Config := {|
  weather_api_key := weather_api_key config;
  default_city := city;
  timeout := timeout config;
  weather_url_template := weather_url_template config
|}.

(** The standard output as a terminal, as a pipe, and closed. *)
Definition tty : Terminal.t := {|
  Terminal.isatty := Return true;
  Terminal.print := fun _ => Return tt
|}.

Definition pipe : Terminal.t := {|
  Terminal.isatty := Return false;
  Terminal.print := fun _ => Return tt
|}.

Definition closed_stdout : Terminal.t := {|
  Terminal.isatty := Raise (Exn ValueError "I/O operation on closed file.");
  Terminal.print := fun _ => Raise (Exn ValueError "I/O operation on closed file.")
|}.

(** [parser.parse_args([])] and [parser.parse_args(["--no-weather"])]. *)
Definition default_args : Args.t := {|
  Args.no_weather := false;
  Args.no_colors := false;
  Args.city := None;
  Args.config := None;
  Args.log_level := Logging.WARNING
|}.

Definition no_weather_args : Args.t := {|
  Args.no_weather := true;
  Args.no_colors := false;
  Args.city := None;
  Args.config := None;
  Args.log_level := Logging.WARNING
|}.

(** [parser.parse_args(["--city", city, "--log-level", "DEBUG"])] *)
Definition city_args (city : string) : Args.t := {|
  Args.no_weather := false;
  Args.no_colors := false;
  Args.city := Some city;
  Args.config := None;
  Args.log_level := Logging.DEBUG
|}.

(** ** Tactics *)

(** Unfolds the operations of [M]. *)
Ltac run := unfold bind, lift, try_except, call, log, ret, raise.

(** In [H : (x <- m ;; k) t = (Return _, _)], names the outcome of [m t],
    which must be a value. *)
Ltac next_block H t name :=
  match type of H with
  | context [bind ?m ?k t] =>
      change (bind m k t)
        with (match m t with
              | (Return a, t') => k a t'
              | (Raise e, t') => (Raise e, t')
              end) in H;
      let info := fresh "info" in
      let e := fresh "e" in
      let t' := fresh "t" in
      destruct (m t) as [[info | e] t'] eqn:name; [| discriminate]
  end.

(** Case analysis on the value a [match] or an [if] of the goal looks at. *)
Ltac break_match :=
  match goal with
  | |- context [match ?x with _ => _ end] =>
      lazymatch x with
      | context [match _ with _ => _ end] => fail
      | _ => destruct x eqn:?
      end
  | |- context [if ?x then _ else _] =>
      lazymatch x with
      | context [if _ then _ else _] => fail
      | context [match _ with _ => _ end] => fail
      | _ => destruct x eqn:?
      end
  end.

(** In [H : (x <- m ;; k) t = _], names the outcome of [m t], a value or
    an exception. *)
Ltac next_raise H t name :=
  match type of H with
  | context [bind ?m ?k t] =>
      change (bind m k t)
        with (match m t with
              | (Return a, t') => k a t'
              | (Raise e, t') => (Raise e, t')
              end) in H;
      let info := fresh "info" in
      let e := fresh "e" in
      let t' := fresh "t" in
      destruct (m t) as [[info | e] t'] eqn:name
  end.

(** * Theorems *)

Lemma py_int_floor (x : Q) (n : Z) :
  (inject_Z n <= x)%Q -> (x < inject_Z (n + 1))%Q -> 0 <= n -> py_int x = n.
Proof.
  destruct x as [p q]. unfold py_int, Qle, Qlt, inject_Z. simpl.
  intros Hlo Hhi Hn.
  assert (Hp : 0 <= p) by nia.
  rewrite Z.quot_div_nonneg by lia.
  symmetry. apply Z.div_unique with (r := p - n * Z.pos q); nia.
Qed.

Lemma uptime_divmod (n d h m s : Z) :
  n = d * 86400 + h * 3600 + m * 60 + s ->
  0 <= h < 24 -> 0 <= m < 60 -> 0 <= s < 60 ->
  n / 86400 = d /\ (n mod 86400) / 3600 = h /\
  ((n mod 86400) mod 3600) / 60 = m /\ ((n mod 86400) mod 3600) mod 60 = s.
Proof.
  intros -> Hh Hm Hs.
  assert (E1 : (d * 86400 + h * 3600 + m * 60 + s) / 86400 = d).
  { symmetry. apply Z.div_unique with (r := h * 3600 + m * 60 + s); lia. }
  assert (E2 : (d * 86400 + h * 3600 + m * 60 + s) mod 86400 = h * 3600 + m * 60 + s).
  { symmetry. apply Z.mod_unique with (q := d); lia. }
  rewrite E1, E2.
  assert (E3 : (h * 3600 + m * 60 + s) / 3600 = h).
  { symmetry. apply Z.div_unique with (r := m * 60 + s); lia. }
  assert (E4 : (h * 3600 + m * 60 + s) mod 3600 = m * 60 + s).
  { symmetry. apply Z.mod_unique with (q := h); lia. }
  rewrite E3, E4.
  assert (E5 : (m * 60 + s) / 60 = m).
  { symmetry. apply Z.div_unique with (r := s); lia. }
  assert (E6 : (m * 60 + s) mod 60 = s).
  { symmetry. apply Z.mod_unique with (q := m); lia. }
  rewrite E5, E6. auto.
Qed.

Lemma uptime_parts_units (n d h m s : Z) :
  n = d * 86400 + h * 3600 + m * 60 + s ->
  0 <= h < 24 -> 0 <= m < 60 -> 0 <= s < 60 ->
  PyStr.join " " (uptime_parts n) = render_units (nonzero_units d h m s).
Proof.
  intros Hn Hh Hm Hs.
  destruct (uptime_divmod n d h m s Hn Hh Hm Hs) as (Ed & Eh & Em & Es).
  unfold uptime_parts. cbv zeta. rewrite Ed, Eh, Em, Es.
  unfold nonzero_units. cbn [filter fst snd].
  destruct (d =? 0), (h =? 0), (m =? 0), (s =? 0) eqn:Hs0; cbn; try reflexivity.
  apply Z.eqb_eq in Hs0. rewrite Hs0. reflexivity.
Qed.

(** C3. For a number of seconds [x >= 0], let [n] be [x] with its
    fractional part discarded ([n <= x < n + 1], no rounding) and
    [n = d] days [+ h] hours [+ m] minutes [+ s] seconds the decomposition
    of [n].  Then [format_uptime x] is the units that are not zero, largest
    first, separated by one space, and "0s" when [n] is zero.  In particular
    0 gives "0s", 60 gives "1m", 3600 gives "1h", 86400 gives "1d", and
    90125.2 (as the decimal and as the binary64 value the literal denotes)
    gives "1d 1h 2m 5s". *)
Theorem format_uptime_units :
  (forall (x : Q) (n d h m s : Z),
      (0 <= x)%Q ->
      (inject_Z n <= x)%Q -> (x < inject_Z (n + 1))%Q ->
      n = d * 86400 + h * 3600 + m * 60 + s ->
      0 <= d -> 0 <= h < 24 -> 0 <= m < 60 -> 0 <= s < 60 ->
      format_uptime x = render_units (nonzero_units d h m s)) /\
  format_uptime 0 = "0s" /\
  format_uptime 60 = "1m" /\
  format_uptime 3600 = "1h" /\
  format_uptime 86400 = "1d" /\
  format_uptime (901252 # 10) = "1d 1h 2m 5s" /\
  format_uptime (6193356584727347 # 68719476736) = "1d 1h 2m 5s".
Proof.
  split; [| repeat split; reflexivity].
  intros x n d h m s Hx Hlo Hhi Hn Hd Hh Hm Hs.
  unfold format_uptime. cbv zeta.
  rewrite (py_int_floor x n Hlo Hhi) by lia.
  now apply uptime_parts_units.
Qed.

Lemma format_uptime_units_witness :
  format_uptime (37258 # 10) = "1h 2m 5s".
Proof.
  apply (proj1 format_uptime_units (37258 # 10)%Q 3725 0 1 2 5);
    unfold Qle, Qlt; simpl; lia.
Defined.

(** ** Running a computation *)

Lemma bind_run {A B : Type} (m : M A) (k : A -> M B) (t : Trace) :
  bind m k t =
  match m t with
  | (Return a, t') => k a t'
  | (Raise e, t') => (Raise e, t')
  end.
Proof. reflexivity. Qed.

Lemma truthy_opt_some (key : string) :
  key <> EmptyString -> Py.truthy_opt (Some key) = true.
Proof. destruct key; [congruence | reflexivity]. Qed.

Lemma is_none_false (v : pyval) : v <> PyNone -> Py.is_none v = false.
Proof. destruct v; [congruence | reflexivity ..]. Qed.

(** ** get_weather *)

Section Weather.

Variable env : Env.
Variable config : Config.

Lemma get_weather_falsy_key (city : option string) (t : Trace) :
  Py.truthy_opt (weather_api_key config) = false ->
  get_weather env config city t
  = (Raise (Exn WeatherAPIError "Weather API key not configured"), t).
Proof.
  intros Hkey. unfold get_weather. rewrite Hkey. reflexivity.
Qed.

(** C6. When the configuration has no weather API key, [get_weather]
    raises [WeatherAPIError("Weather API key not configured")] whatever the
    city argument, and it leaves the trace as it found it: no request is
    made (and nothing else happens). *)
Theorem get_weather_absent_key (city : option string) (t : Trace) :
  weather_api_key config = None ->
  fst (get_weather env config city t)
  = Raise (Exn WeatherAPIError "Weather API key not configured") /\
  snd (get_weather env config city t) = t /\
  http_calls (snd (get_weather env config city t)) = http_calls t.
Proof.
  intros Hkey.
  rewrite get_weather_falsy_key by (rewrite Hkey; reflexivity).
  auto.
Qed.

(** C10. A weather API key that is the empty string is treated as an
    absent one: the same [WeatherAPIError], and no request. *)
Theorem get_weather_empty_key (city : option string) (t : Trace) :
  weather_api_key config = Some EmptyString ->
  get_weather env config city t
  = get_weather env (with_api_key None config) city t /\
  fst (get_weather env config city t)
  = Raise (Exn WeatherAPIError "Weather API key not configured") /\
  snd (get_weather env config city t) = t /\
  http_calls (snd (get_weather env config city t)) = http_calls t.
Proof.
  intros Hkey.
  rewrite get_weather_falsy_key by (rewrite Hkey; reflexivity).
  auto.
Qed.

(** The three ways the request can fail, and what is raised for each. *)
Section Failures.

Variables (city : option string) (t : Trace) (key url : string) (seconds : Z).
Hypothesis Hkey : weather_api_key config = Some key.
Hypothesis Hne : key <> EmptyString.
Hypothesis Hfmt :
  str_format env (weather_url_template config)
    (Py.or_else city (default_city config)) key = Return url.
Hypothesis Hto : timeout config = Return seconds.

(** [requests.get] raises a [RequestException] (a connection error, a
    timeout). *)
Lemma get_weather_request_fails (e : exn) :
  requests_get env (Log DEBUG ("url=" ++ Py.repr_str url) :: t) url seconds
  = Raise e ->
  isinstance e RequestException = true ->
  fst (get_weather env config city t)
  = Raise (Exn WeatherAPIError ("Failed to fetch weather data: " ++ str_of e)).
Proof.
  intros Hget He. unfold get_weather.
  rewrite Hkey, (truthy_opt_some key Hne). cbn [negb].
  run. rewrite Hfmt, Hto, Hget.
  cbn [find fst snd caught_by existsb]. rewrite He. reflexivity.
Qed.

(** [raise_for_status] raises a [RequestException] (an [HTTPError] for a
    status that is not 2xx). *)
Lemma get_weather_status_fails (response : Response) (e : exn) :
  requests_get env (Log DEBUG ("url=" ++ Py.repr_str url) :: t) url seconds
  = Return response ->
  raise_for_status response = Raise e ->
  isinstance e RequestException = true ->
  fst (get_weather env config city t)
  = Raise (Exn WeatherAPIError ("Failed to fetch weather data: " ++ str_of e)).
Proof.
  intros Hget Hrfs He. unfold get_weather.
  rewrite Hkey, (truthy_opt_some key Hne). cbn [negb].
  run. rewrite Hfmt, Hto, Hget, Hrfs.
  cbn [find fst snd caught_by existsb]. rewrite He. reflexivity.
Qed.

(** [response.json()] raises: the first clause is tried first, so the
    message says "parse" only for a [ValueError] (or [KeyError], or
    [IndexError]) that is not a [RequestException] as well. *)
Lemma get_weather_json_fails (response : Response) (e : exn) :
  requests_get env (Log DEBUG ("url=" ++ Py.repr_str url) :: t) url seconds
  = Return response ->
  raise_for_status response = Return tt ->
  json response = Raise e ->
  caught_by [KeyError; IndexError; ValueError] e = true ->
  fst (get_weather env config city t)
  = Raise (Exn WeatherAPIError
             ((if isinstance e RequestException
               then "Failed to fetch weather data: "
               else "Failed to parse weather data: ") ++ str_of e)).
Proof.
  intros Hget Hrfs Hjson He. unfold get_weather.
  rewrite Hkey, (truthy_opt_some key Hne). cbn [negb].
  run. rewrite Hfmt, Hto, Hget, Hrfs, Hjson.
  cbn [find fst snd]. unfold caught_by at 1. cbn [existsb].
  destruct (isinstance e RequestException); cbn [orb find fst snd].
  - reflexivity.
  - rewrite He. reflexivity.
Qed.

End Failures.

(** A body with status code 200, a temperature and a description. *)
Lemma get_weather_returns (city : option string) (t : Trace)
    (data temp description : pyval) (first : list (string * pyval))
    (others : list pyval) :
  transported env config city t data ->
  cod_is_200 data ->
  safe_get_nested data ["main"; "temp"] PyNone = temp -> temp <> PyNone ->
  Py.get data "weather" (PyList []) = Return (PyList (PyDict first :: others)) ->
  Py.lookup "description" first = Some description -> description <> PyNone ->
  fst (get_weather env config city t)
  = Return (Py.or_else city (default_city config) ++ ": " ++ Py.str temp
              ++ degree ++ "C, " ++ Py.str description).
Proof.
  intros (key & url & seconds & response & Hkey & Hne & Hfmt & Hto & Hget & Hrfs & Hjson)
         (cod & Hcod & H200) Htemp Htne Hwl Hdesc Hdne.
  unfold get_weather. rewrite Hkey, (truthy_opt_some key Hne). cbn [negb].
  run. rewrite Hfmt, Hto, Hget, Hrfs, Hjson, Hcod, H200. cbn [negb].
  rewrite Hwl. cbn [Py.truthy Py.len Py.getitem0 Py.get List.length].
  replace (0 <? Z.of_nat (S (List.length others))) with true
    by (symmetry; apply Z.ltb_lt; lia).
  rewrite Hdesc, Htemp, (is_none_false temp Htne), (is_none_false description Hdne).
  reflexivity.
Qed.

(** Where the error for a schema mismatch is raised: when the request is
    answered by a body with status code 200 whose weather field is missing,
    empty, or a list that starts with an object, and the temperature at
    [main.temp] is missing, or the description of the first element of the
    weather list is missing (the list may be missing or empty),
    [get_weather] raises [WeatherAPIError("Invalid weather data format")]:
    a message that starts like none of the messages for a failed request,
    an unreadable body or an error reported by the API. *)
Theorem get_weather_invalid_format (city : option string) (t : Trace) (data : pyval) :
  transported env config city t data ->
  cod_is_200 data ->
  weather_shape_ok data ->
  safe_get_nested data ["main"; "temp"] PyNone = PyNone
  \/ first_description data = PyNone ->
  fst (get_weather env config city t)
  = Raise (Exn WeatherAPIError "Invalid weather data format") /\
  PyStr.startswith "Invalid weather data format" "Failed to fetch weather data: " = false /\
  PyStr.startswith "Invalid weather data format" "Failed to parse weather data: " = false /\
  PyStr.startswith "Invalid weather data format" "Weather API error: " = false.
Proof.
  intros (key & url & seconds & response & Hkey & Hne & Hfmt & Hto & Hget & Hrfs & Hjson)
         (cod & Hcod & H200) Hshape Habsent.
  split; [| repeat split; reflexivity].
  unfold get_weather. rewrite Hkey, (truthy_opt_some key Hne). cbn [negb].
  run. rewrite Hfmt, Hto, Hget, Hrfs, Hjson, Hcod, H200. cbn [negb].
  unfold weather_shape_ok, first_description in *.
  destruct (Py.get data "weather" (PyList [])) as [w | e]; [| contradiction].
  destruct (Py.truthy w) eqn:Hw.
  - destruct w as [ | | | | | [| [ | | | | | | first] others] | ];
      try contradiction.
    cbn [Py.len Py.getitem0 Py.get List.length].
    replace (0 <? Z.of_nat (S (List.length others))) with true
      by (symmetry; apply Z.ltb_lt; lia).
    destruct (Py.lookup "description" first) as [d |].
    + destruct Habsent as [-> | ->]; cbn;
        [reflexivity | rewrite orb_true_r; reflexivity].
    + cbn. rewrite orb_true_r. reflexivity.
  - cbn. rewrite orb_true_r. reflexivity.
Qed.

End Weather.

Lemma mock_transported (body : pyval) (city : option string) (t : Trace) :
  transported (mock_env (Return body)) mock_config city t body.
Proof.
  exists "test_api_key",
    ("http://api.test.com/weather?q=" ++ Py.or_else city "TestCity"
       ++ "&appid=test_api_key&units=metric"),
    10, {| raise_for_status := Return tt; json := Return body |}.
  repeat split. discriminate.
Qed.

(** C9. When the request is answered by a body with status code 200, a
    temperature at [main.temp], and a weather list whose first element has
    a description, [get_weather] returns "<city>: <temp>, <description>"
    with the degree sign and "C" after the temperature; the temperature is
    the text Python prints for the value received, with no rounding or
    conversion.  The city printed is the city given, when one is given and
    it is not empty, whatever the default city is; it is the default city
    of the configuration when no city or an empty one is given.  In
    particular, for city "TestCity", [main.temp=25.5] and description
    "clear sky" it returns "TestCity: 25.5", the degree sign, and
    "C, clear sky", also when the default city is another one; and for the
    city "Paris" with the default "TestCity" it returns "Paris: 25.5" and
    the rest. *)
Theorem get_weather_format :
  (forall (env : Env) (config : Config) (name : string) (t : Trace)
          (data temp description : pyval) (first : list (string * pyval))
          (others : list pyval),
      name <> EmptyString ->
      transported env config (Some name) t data ->
      cod_is_200 data ->
      safe_get_nested data ["main"; "temp"] PyNone = temp -> temp <> PyNone ->
      Py.get data "weather" (PyList [])
      = Return (PyList (PyDict first :: others)) ->
      Py.lookup "description" first = Some description ->
      description <> PyNone ->
      fst (get_weather env config (Some name) t)
      = Return (name ++ ": " ++ Py.str temp ++ degree ++ "C, "
                  ++ Py.str description)) /\
  (forall (env : Env) (config : Config) (city : option string) (t : Trace)
          (data temp description : pyval) (first : list (string * pyval))
          (others : list pyval),
      city = None \/ city = Some EmptyString ->
      transported env config city t data ->
      cod_is_200 data ->
      safe_get_nested data ["main"; "temp"] PyNone = temp -> temp <> PyNone ->
      Py.get data "weather" (PyList [])
      = Return (PyList (PyDict first :: others)) ->
      Py.lookup "description" first = Some description ->
      description <> PyNone ->
      fst (get_weather env config city t)
      = Return (default_city config ++ ": " ++ Py.str temp ++ degree ++ "C, "
                  ++ Py.str description)) /\
  fst (get_weather (mock_env (Return clear_sky)) mock_config (Some "TestCity") [])
  = Return ("TestCity: 25.5" ++ degree ++ "C, clear sky") /\
  fst (get_weather (mock_env (Return clear_sky))
         (with_default_city "Dhaka" mock_config) (Some "TestCity") [])
  = Return ("TestCity: 25.5" ++ degree ++ "C, clear sky") /\
  fst (get_weather (mock_env (Return clear_sky)) mock_config (Some "Paris") [])
  = Return ("Paris: 25.5" ++ degree ++ "C, clear sky").
Proof.
  split; [| split; [| repeat split; reflexivity]].
  - intros env config name t data temp description first others Hname
           Htr Hcod Htemp Htne Hwl Hdesc Hdne.
    rewrite (get_weather_returns env config (Some name) t data temp description
               first others Htr Hcod Htemp Htne Hwl Hdesc Hdne).
    destruct name; [congruence | reflexivity].
  - intros env config city t data temp description first others Hcity
           Htr Hcod Htemp Htne Hwl Hdesc Hdne.
    rewrite (get_weather_returns env config city t data temp description
               first others Htr Hcod Htemp Htne Hwl Hdesc Hdne).
    destruct Hcity as [-> | ->]; reflexivity.
Qed.

Lemma get_weather_absent_key_witness :
  fst (get_weather (mock_env (Return clear_sky)) (with_api_key None mock_config)
         (Some "Dhaka") [])
  = Raise (Exn WeatherAPIError "Weather API key not configured").
Proof.
  apply (get_weather_absent_key (mock_env (Return clear_sky))
           (with_api_key None mock_config) (Some "Dhaka") []).
  reflexivity.
Defined.

Lemma get_weather_empty_key_witness :
  fst (get_weather (mock_env (Return clear_sky))
         (with_api_key (Some EmptyString) mock_config) None [])
  = Raise (Exn WeatherAPIError "Weather API key not configured").
Proof.
  apply (get_weather_empty_key (mock_env (Return clear_sky))
           (with_api_key (Some EmptyString) mock_config) None []).
  reflexivity.
Defined.

(** A city other than the default one, with an [int] temperature; and
    [test_get_weather_default_city]: no city argument, so the default city
    of the configuration. *)
Lemma get_weather_format_witness :
  fst (get_weather (mock_env (Return light_rain)) mock_config (Some "Paris") [])
  = Return ("Paris: -3" ++ degree ++ "C, light rain") /\
  fst (get_weather (mock_env (Return light_rain)) mock_config None [])
  = Return ("TestCity: -3" ++ degree ++ "C, light rain").
Proof.
  split.
  - apply (proj1 get_weather_format (mock_env (Return light_rain)) mock_config
             "Paris" [] light_rain (PyInt (-3)) (PyStr "light rain")
             [("id", PyInt 800); ("description", PyStr "light rain")] []).
    + discriminate.
    + apply mock_transported.
    + exists (PyInt 200). split; reflexivity.
    + reflexivity.
    + discriminate.
    + reflexivity.
    + reflexivity.
    + discriminate.
  - apply (proj1 (proj2 get_weather_format) (mock_env (Return light_rain))
             mock_config None [] light_rain (PyInt (-3)) (PyStr "light rain")
             [("id", PyInt 800); ("description", PyStr "light rain")] []).
    + left. reflexivity.
    + apply mock_transported.
    + exists (PyInt 200). split; reflexivity.
    + reflexivity.
    + discriminate.
    + reflexivity.
    + reflexivity.
    + discriminate.
Defined.

(** The bodies of [test_get_weather_missing_temperature] and
    [test_get_weather_missing_description]. *)
Lemma get_weather_invalid_format_witness :
  fst (get_weather
         (mock_env (Return (PyDict [("cod", PyInt 200);
                                    ("weather", PyList [PyDict [("description", PyStr "clear sky")]])])))
         mock_config None [])
  = Raise (Exn WeatherAPIError "Invalid weather data format") /\
  fst (get_weather
         (mock_env (Return (PyDict [("cod", PyInt 200);
                                    ("main", PyDict [("temp", PyFloat "25.5")]);
                                    ("weather", PyList [])])))
         mock_config None [])
  = Raise (Exn WeatherAPIError "Invalid weather data format").
Proof.
  split.
  - apply (get_weather_invalid_format _ mock_config None [] _
             (mock_transported _ None [])).
    + exists (PyInt 200). split; reflexivity.
    + exact I.
    + left. reflexivity.
  - apply (get_weather_invalid_format _ mock_config None [] _
             (mock_transported _ None [])).
    + exists (PyInt 200). split; reflexivity.
    + exact I.
    + right. reflexivity.
Defined.

(** C8, at bodies with status code 200 and no temperature whose weather
    field is not a list of objects.  Each is transported and parsed, has
    the status code 200 and no [main.temp], so C8 asks for
    [WeatherAPIError("Invalid weather data format")].  Where the first
    element of the weather list is [null], [weather_list[0].get] raises
    [AttributeError]; so it does where the weather field is a string; and
    where it is a number, [len(weather_list)] raises [TypeError].  Neither
    clause of [get_weather] catches these, they are no [WeatherAPIError],
    and [get_all_info], which catches only that for the weather probe,
    raises them too: no map is returned. *)
Theorem get_weather_malformed_weather :
  (transported (mock_env (Return null_weather)) mock_config None [] null_weather /\
   cod_is_200 null_weather /\
   safe_get_nested null_weather ["main"; "temp"] PyNone = PyNone /\
   first_description null_weather = PyNone) /\
  fst (get_weather (mock_env (Return null_weather)) mock_config None [])
  = Raise (Exn AttributeError "'NoneType' object has no attribute 'get'") /\
  fst (get_weather
         (mock_env (Return (PyDict [("cod", PyInt 200); ("weather", PyStr "rain")])))
         mock_config None [])
  = Raise (Exn AttributeError "'str' object has no attribute 'get'") /\
  fst (get_weather
         (mock_env (Return (PyDict [("cod", PyInt 200); ("weather", PyInt 5)])))
         mock_config None [])
  = Raise (Exn TypeError "object of type 'int' has no len()") /\
  caught_by [RequestException] (Exn AttributeError "'NoneType' object has no attribute 'get'")
  = false /\
  caught_by [KeyError; IndexError; ValueError]
    (Exn AttributeError "'NoneType' object has no attribute 'get'")
  = false /\
  isinstance (Exn AttributeError "'NoneType' object has no attribute 'get'")
    WeatherAPIError
  = false /\
  fst (get_all_info (SystemInfo (mock_env (Return null_weather)) mock_config) true [])
  = Raise (Exn AttributeError "'NoneType' object has no attribute 'get'").
Proof.
  split.
  - split; [apply mock_transported |].
    split; [exists (PyInt 200); split; reflexivity |].
    split; reflexivity.
  - repeat split.
Qed.

(** C5, at a body that is not JSON, with requests 2.27 or later.  The
    request is answered, [raise_for_status] passes, and [response.json()]
    raises [not_json].  That exception is a [RequestException] and a
    [ValueError]; the clause for [RequestException] comes first, so the
    error says "Failed to fetch weather data", not "Failed to parse weather
    data". *)
Theorem get_weather_not_json :
  isinstance not_json RequestException = true /\
  isinstance not_json ValueError = true /\
  fst (get_weather (mock_env (Raise not_json)) mock_config None [])
  = Raise (Exn WeatherAPIError
             "Failed to fetch weather data: Expecting value: line 1 column 1 (char 0)").
Proof. repeat split. Qed.

(** ** get_all_info *)

Section Block.

Context {A : Type}.
Variables (probe : M A) (show : A -> string) (info : dict).
Variables (label failure : string) (classes : list exn_class).

(** One block [try: info[label] = probe()  except classes as e: ...] of
    [get_all_info] returns exactly when the clause catches what the probe
    raises, and then it sets [label] to the probe's entry. *)
Lemma block_returns (t t' : Trace) (info' : dict) :
  try_except
    (v <- probe ;; ret (dict_set info label (show v)))
    [(classes, fun e =>
        log ERROR (failure ++ str_of e) ;;
        ret (dict_set info label ("Error: " ++ str_of e)))] t
  = (Return info', t') ->
  exists text,
    entry_of classes show (fst (probe t)) = Some text /\
    info' = dict_set info label text.
Proof.
  run. destruct (probe t) as [[v | e] t1]; cbn [find fst snd entry_of].
  - intros [= <- _]. eauto.
  - destruct (caught_by classes e); [| discriminate].
    intros [= <- _]. eauto.
Qed.

Lemma block_total (t : Trace) (text : string) :
  entry_of classes show (fst (probe t)) = Some text ->
  exists t',
    try_except
      (v <- probe ;; ret (dict_set info label (show v)))
      [(classes, fun e =>
          log ERROR (failure ++ str_of e) ;;
          ret (dict_set info label ("Error: " ++ str_of e)))] t
    = (Return (dict_set info label text), t').
Proof.
  run. destruct (probe t) as [[v | e] t1]; cbn [find fst snd entry_of].
  - intros [= <-]. eexists; reflexivity.
  - destruct (caught_by classes e); [| discriminate].
    intros [= <-]. eexists; reflexivity.
Qed.

End Block.

Lemma declared_entry {A : Type} (classes : list exn_class) (show : A -> string)
    (r : result A) :
  declared classes r -> exists text, entry_of classes show r = Some text.
Proof.
  destruct r as [v | e]; cbn.
  - eauto.
  - intros ->. eauto.
Qed.

Lemma get_all_info_inv (self : Probes) (b : bool) (t t' : Trace) (info : dict) :
  get_all_info self b t = (Return info, t') ->
  exists now ew ei er eu t0 tw ti tr tu,
    fst (probe_current_time self t0) = Return now /\
    (b = true -> entry_of [WeatherAPIError] (fun v => v)
                   (fst (probe_weather self None tw)) = Some ew) /\
    entry_of [SystemInfoError] (fun v => v) (fst (probe_ip_address self ti)) = Some ei /\
    entry_of [Exception] router_ip_text (fst (probe_router_ip self tr)) = Some er /\
    entry_of [SystemInfoError] (fun v => v) (fst (probe_uptime self tu)) = Some eu /\
    info = info_map b now ew ei er eu.
Proof.
  unfold get_all_info. intros H. cbv zeta in H.
  rewrite bind_run in H.
  destruct (probe_current_time self t) as [[now | e0] t0] eqn:H0; [| discriminate].
  next_block H t0 H1. next_block H t1 H2. next_block H t2 H3. next_block H t3 H4.
  injection H as <- <-.
  apply (block_returns _ (fun v => v)) in H2. destruct H2 as (ei & Hi & ->).
  apply (block_returns _ router_ip_text) in H3. destruct H3 as (er & Hr & ->).
  apply (block_returns _ (fun v => v)) in H4. destruct H4 as (eu & Hu & ->).
  destruct b.
  - apply (block_returns _ (fun v => v)) in H1. destruct H1 as (ew & Hw & ->).
    exists now, ew, ei, er, eu, t, t0, t1, t2, t3.
    rewrite H0. repeat split; auto.
  - injection H1 as <- <-.
    exists now, EmptyString, ei, er, eu, t, t0, t0, t2, t3.
    rewrite H0. repeat split; auto. discriminate.
Qed.

Lemma get_all_info_total (self : Probes) (b : bool) :
  well_behaved self b ->
  forall t, exists info t', get_all_info self b t = (Return info, t').
Proof.
  intros (Hnow & Hw & Hi & Hr & Hu) t.
  unfold get_all_info. cbv zeta.
  rewrite bind_run. destruct (Hnow t) as (now & H0).
  destruct (probe_current_time self t) as [r0 t0]. cbn in H0. subst r0.
  rewrite bind_run.
  match goal with
  | |- context [match ?m t0 with _ => _ end] =>
      assert (H1 : exists info1 t1, m t0 = (Return info1, t1))
  end.
  { destruct b.
    - destruct (declared_entry _ (fun v => v) _ (Hw eq_refl t0)) as (ew & Hew).
      destruct (block_total (probe_weather self None) (fun v => v) [("Date/Time", now)]
                  "Weather" "Failed to get weather: " [WeatherAPIError] t0 ew Hew) as (t1 & Hb).
      eexists _, _. exact Hb.
    - eexists _, _. reflexivity. }
  destruct H1 as (info1 & t1 & ->).
  rewrite bind_run.
  destruct (declared_entry _ (fun v => v) _ (Hi t1)) as (ei & Hei).
  destruct (block_total (probe_ip_address self) (fun v => v) info1
              "IP Address" "Failed to get IP address: " [SystemInfoError] t1 ei Hei) as (t2 & ->).
  rewrite bind_run.
  destruct (declared_entry _ router_ip_text _ (Hr t2)) as (er & Her).
  destruct (block_total (probe_router_ip self) router_ip_text (dict_set info1 "IP Address" ei)
              "Router IP" "Failed to get router IP: " [Exception] t2 er Her) as (t3 & ->).
  rewrite bind_run.
  destruct (declared_entry _ (fun v => v) _ (Hu t3)) as (eu & Heu).
  destruct (block_total (probe_uptime self) (fun v => v)
              (dict_set (dict_set info1 "IP Address" ei) "Router IP" er)
              "Uptime" "Failed to get uptime: " [SystemInfoError] t3 eu Heu) as (t4 & ->).
  eexists _, _. reflexivity.
Qed.

Lemma keys_info_map (b : bool) (now ew ei er eu : string) :
  keys (info_map b now ew ei er eu) = expected_keys b.
Proof. destruct b; reflexivity. Qed.

Lemma entry_of_shown (classes : list exn_class) (r : result string) :
  declared classes r -> entry_of classes (fun v => v) r = Some (shown r).
Proof.
  destruct r as [v | e]; cbn; [reflexivity | intros ->; reflexivity].
Qed.

Lemma entry_of_router_shown (classes : list exn_class) (r : result (option string)) :
  declared classes r -> entry_of classes router_ip_text r = Some (router_shown r).
Proof.
  destruct r as [v | e]; cbn; [reflexivity | intros ->; reflexivity].
Qed.

(** The entries of the map [get_all_info] returns, for probes whose
    outcome may depend on what happened before: each entry shows the
    outcome its probe had when the aggregator ran it. *)
Lemma get_all_info_shows_outcomes (self : Probes) (include_weather : bool) :
  well_behaved self include_weather ->
  forall t, exists info t' now tw ti tr tu,
    get_all_info self include_weather t = (Return info, t') /\
    fst (probe_current_time self t) = Return now /\
    info = info_map include_weather now
             (shown (fst (probe_weather self None tw)))
             (shown (fst (probe_ip_address self ti)))
             (router_shown (fst (probe_router_ip self tr)))
             (shown (fst (probe_uptime self tu))).
Proof.
  intros WB t.
  destruct (get_all_info_total self include_weather WB t) as (info & t' & Hrun).
  exists info, t'. destruct WB as (_ & Dw & Di & Dr & Du).
  pose proof Hrun as Hret.
  unfold get_all_info in Hrun. cbv zeta in Hrun.
  rewrite bind_run in Hrun.
  destruct (probe_current_time self t) as [[now | e0] t0] eqn:H0; [| discriminate].
  next_block Hrun t0 H1. next_block Hrun t1 H2.
  next_block Hrun t2 H3. next_block Hrun t3 H4.
  injection Hrun as <- <-.
  apply (block_returns _ (fun v => v)) in H2. destruct H2 as (ei & Hi & ->).
  apply (block_returns _ router_ip_text) in H3. destruct H3 as (er & Hr & ->).
  apply (block_returns _ (fun v => v)) in H4. destruct H4 as (eu & Hu & ->).
  rewrite (entry_of_shown _ _ (Di t1)) in Hi. injection Hi as <-.
  rewrite (entry_of_router_shown _ _ (Dr t2)) in Hr. injection Hr as <-.
  rewrite (entry_of_shown _ _ (Du t3)) in Hu. injection Hu as <-.
  destruct include_weather.
  - apply (block_returns _ (fun v => v)) in H1. destruct H1 as (ew & Hw & ->).
    rewrite (entry_of_shown _ _ (Dw eq_refl t0)) in Hw. injection Hw as <-.
    exists now, t0, t1, t2, t3. repeat split. exact Hret.
  - injection H1 as <- <-.
    exists now, t0, t0, t2, t3. repeat split. exact Hret.
Qed.

(** C1, as amended.  Let every probe have one outcome: the clock returns
    a string; the weather probe (when weather is included), the IP probe
    and the uptime probe return a string or raise their declared error
    ([WeatherAPIError], [SystemInfoError]); the router probe returns an
    optional string or raises any [Exception].  Then [get_all_info]
    returns, and the map has one entry per probe, in order: the value of a
    probe that returned, "Error: <message>" for a probe that raised, and
    for the router probe "Not available" when it returned no value or an
    empty one. *)
Theorem get_all_info_entries (self : Probes) (include_weather : bool)
    (now : string) (weather ip uptime : result string)
    (router_ip : result (option string)) :
  outcome (probe_current_time self) (Return now) ->
  (include_weather = true ->
   outcome (probe_weather self None) weather /\ declared [WeatherAPIError] weather) ->
  outcome (probe_ip_address self) ip -> declared [SystemInfoError] ip ->
  outcome (probe_router_ip self) router_ip -> declared [Exception] router_ip ->
  outcome (probe_uptime self) uptime -> declared [SystemInfoError] uptime ->
  forall t,
    fst (get_all_info self include_weather t)
    = Return (("Date/Time", now)
                :: (if include_weather then [("Weather", shown weather)] else [])
                ++ [("IP Address", shown ip);
                    ("Router IP", router_shown router_ip);
                    ("Uptime", shown uptime)]).
Proof.
  intros Hnow Hw Hi Di Hr Dr Hu Du t.
  assert (WB : well_behaved self include_weather).
  { repeat split.
    - intros t0. exists now. apply Hnow.
    - intros Hb t0. destruct (Hw Hb) as [Ow Dw]. now rewrite Ow.
    - intros t0. now rewrite Hi.
    - intros t0. now rewrite Hr.
    - intros t0. now rewrite Hu. }
  destruct (get_all_info_total self include_weather WB t) as (info & t' & Hrun).
  rewrite Hrun. cbn [fst]. f_equal.
  apply get_all_info_inv in Hrun.
  destruct Hrun as (now' & ew & ei & er & eu & t0 & tw & ti & tr & tu
                    & H0 & H1 & H2 & H3 & H4 & ->).
  rewrite Hnow in H0. injection H0 as <-.
  rewrite Hi, (entry_of_shown _ _ Di) in H2. injection H2 as <-.
  rewrite Hr, (entry_of_router_shown _ _ Dr) in H3. injection H3 as <-.
  rewrite Hu, (entry_of_shown _ _ Du) in H4. injection H4 as <-.
  unfold info_map. destruct include_weather; [| reflexivity].
  destruct (Hw eq_refl) as [Ow Dw]. specialize (H1 eq_refl).
  rewrite Ow, (entry_of_shown _ _ Dw) in H1. injection H1 as <-.
  reflexivity.
Qed.

(** C2.  Whenever [get_all_info] returns a map, its keys are, in order,
    "Date/Time", then "Weather" exactly when weather was requested, then
    "IP Address", "Router IP", "Uptime", whether the probes returned or
    raised; it does return when every probe returns or raises an error its
    [except] clause catches; and two calls with the same flag, in whatever
    state of the world, give the same keys in the same order. *)
Theorem get_all_info_keys (self : Probes) (include_weather : bool) :
  (forall t info t',
      get_all_info self include_weather t = (Return info, t') ->
      keys info = expected_keys include_weather /\
      (In "Weather" (keys info) <-> include_weather = true)) /\
  (well_behaved self include_weather ->
   forall t, exists info t',
     get_all_info self include_weather t = (Return info, t') /\
     keys info = expected_keys include_weather) /\
  (forall t1 t2 info1 info2 t1' t2',
      get_all_info self include_weather t1 = (Return info1, t1') ->
      get_all_info self include_weather t2 = (Return info2, t2') ->
      keys info1 = keys info2).
Proof.
  assert (K : forall t info t',
             get_all_info self include_weather t = (Return info, t') ->
             keys info = expected_keys include_weather).
  { intros t info t' Hrun. apply get_all_info_inv in Hrun.
    destruct Hrun as (now & ew & ei & er & eu & _ & _ & _ & _ & _
                      & _ & _ & _ & _ & _ & ->).
    apply keys_info_map. }
  split; [| split].
  - intros t info t' Hrun. split; [now apply (K t info t') |].
    rewrite (K _ _ _ Hrun). destruct include_weather; cbn.
    + split; auto.
    + split; [| discriminate].
      intros [H | [H | [H | [H | []]]]]; discriminate.
  - intros WB t.
    destruct (get_all_info_total self include_weather WB t) as (info & t' & Hrun).
    exists info, t'. split; [exact Hrun | now apply (K t info t')].
  - intros t1 t2 info1 info2 t1' t2' H1 H2.
    rewrite (K _ _ _ H1), (K _ _ _ H2). reflexivity.
Qed.

Lemma keys_with_weather_last :
  Permutation ["Date/Time"; "IP Address"; "Router IP"; "Uptime"; "Weather"]
    (expected_keys true).
Proof.
  apply Permutation_sym, perm_skip.
  apply (Permutation_cons_append ["IP Address"; "Router IP"; "Uptime"] "Weather").
Qed.

Lemma keys_set_weather (now ew ei er eu w : string) :
  keys (dict_set (info_map false now ew ei er eu) "Weather" w)
  = ["Date/Time"; "IP Address"; "Router IP"; "Uptime"; "Weather"].
Proof. reflexivity. Qed.

(** Whatever the probes do, a map the [--city] path returns has "Weather"
    as its last key. *)
Lemma city_override_keys (sys_info : Probes) (city : option string)
    (t t' : Trace) (info : dict) :
  Py.truthy_opt city = true ->
  main_info_data sys_info false city t = (Return info, t') ->
  keys info = ["Date/Time"; "IP Address"; "Router IP"; "Uptime"; "Weather"].
Proof.
  intros Hcity. unfold main_info_data. cbn [negb andb]. rewrite Hcity.
  unfold try_except. rewrite bind_run.
  assert (Handler : forall e t1,
             (info_data <- get_all_info sys_info false ;;
              ret (dict_set info_data "Weather" ("Error: " ++ str_of e))) t1
             = (Return info, t') ->
             keys info
             = ["Date/Time"; "IP Address"; "Router IP"; "Uptime"; "Weather"]).
  { intros e t1. rewrite bind_run.
    destruct (get_all_info sys_info false t1) as [[info1 | e1] t2] eqn:H1;
      [| discriminate].
    intros [= <- _]. apply get_all_info_inv in H1.
    destruct H1 as (now & ew & ei & er & eu & _ & _ & _ & _ & _
                    & _ & _ & _ & _ & _ & ->).
    apply keys_set_weather. }
  destruct (get_all_info sys_info false t) as [[info0 | e0] t0] eqn:H0.
  - rewrite bind_run.
    destruct (probe_weather sys_info city t0) as [[w | e] t1].
    + intros [= <- _]. apply get_all_info_inv in H0.
      destruct H0 as (now & ew & ei & er & eu & _ & _ & _ & _ & _
                      & _ & _ & _ & _ & _ & ->).
      apply keys_set_weather.
    + cbn [find fst snd]. destruct (caught_by [Exception] e); [| discriminate].
      cbn [snd]. apply Handler.
  - cbn [find fst snd]. destruct (caught_by [Exception] e0); [| discriminate].
    cbn [snd]. apply Handler.
Qed.

(** When the probes raise only what is caught, the [--city] path returns
    a map, and its "Weather" entry shows the outcome of
    [get_weather(city)]. *)
Lemma city_override_returns (sys_info : Probes) (city : option string) :
  Py.truthy_opt city = true ->
  well_behaved sys_info false ->
  (forall t, declared [Exception] (fst (probe_weather sys_info city t))) ->
  forall t, exists info t' tw,
    main_info_data sys_info false city t = (Return info, t') /\
    keys info = ["Date/Time"; "IP Address"; "Router IP"; "Uptime"; "Weather"] /\
    Permutation (keys info) (expected_keys true) /\
    dict_get info "Weather" = Some (shown (fst (probe_weather sys_info city tw))).
Proof.
  intros Hcity WB Hw t.
  unfold main_info_data. cbn [negb andb]. rewrite Hcity.
  unfold try_except. rewrite bind_run.
  destruct (get_all_info_total sys_info false WB t) as (info0 & t0 & Hrun0).
  rewrite Hrun0. rewrite bind_run.
  apply get_all_info_inv in Hrun0.
  destruct Hrun0 as (now & ew & ei & er & eu & _ & _ & _ & _ & _
                     & _ & _ & _ & _ & _ & ->).
  specialize (Hw t0) as Hw0.
  destruct (probe_weather sys_info city t0) as [[w | e] t1] eqn:Hp.
  - exists (dict_set (info_map false now ew ei er eu) "Weather" w), t1, t0.
    rewrite Hp.
    split; [reflexivity |]. split; [reflexivity |].
    split; [exact keys_with_weather_last | reflexivity].
  - cbn [declared fst] in Hw0. cbn [find fst snd]. rewrite Hw0.
    cbn [snd]. rewrite bind_run.
    destruct (get_all_info_total sys_info false WB t1) as (info1 & t2 & Hrun1).
    rewrite Hrun1.
    apply get_all_info_inv in Hrun1.
    destruct Hrun1 as (now' & ew' & ei' & er' & eu' & _ & _ & _ & _ & _
                       & _ & _ & _ & _ & _ & ->).
    exists (dict_set (info_map false now' ew' ei' er' eu') "Weather"
              ("Error: " ++ str_of e)), t2, t0.
    rewrite Hp.
    split; [reflexivity |]. split; [reflexivity |].
    split; [exact keys_with_weather_last | reflexivity].
Qed.

(** C4, as amended.  With a non-empty [--city] and weather not switched
    off, every map that [main] builds has the keys of [get_all_info] with
    weather included, but with "Weather" last: "Date/Time", "IP Address",
    "Router IP", "Uptime", "Weather".  When the probes raise only what is
    caught, [main] does build a map, and the value under "Weather" is what
    [get_weather(city)] returned, or "Error: <message>" when it raised. *)
Theorem main_info_data_city (sys_info : Probes) (city : option string) :
  Py.truthy_opt city = true ->
  (forall t info t',
      main_info_data sys_info false city t = (Return info, t') ->
      keys info = ["Date/Time"; "IP Address"; "Router IP"; "Uptime"; "Weather"] /\
      Permutation (keys info) (expected_keys true)) /\
  (well_behaved sys_info false ->
   (forall t, declared [Exception] (fst (probe_weather sys_info city t))) ->
   forall t, exists info t' tw,
     main_info_data sys_info false city t = (Return info, t') /\
     dict_get info "Weather"
     = Some (shown (fst (probe_weather sys_info city tw)))).
Proof.
  intros Hcity. split.
  - intros t info t' Hrun.
    rewrite (city_override_keys sys_info city t t' info Hcity Hrun).
    split; [reflexivity | exact keys_with_weather_last].
  - intros WB Hw t.
    destruct (city_override_returns sys_info city Hcity WB Hw t)
      as (info & t' & tw & Hrun & _ & _ & Hweather).
    exists info, t', tw. auto.
Qed.

(** ** get_router_ip *)

Lemma append_assoc (a b c : string) : ((a ++ b) ++ c = a ++ (b ++ c))%string.
Proof. induction a as [| x a IH]; cbn; [reflexivity | now rewrite IH]. Qed.

Lemma append_empty_r (a : string) : (a ++ EmptyString)%string = a.
Proof. induction a as [| x a IH]; cbn; [reflexivity | now rewrite IH]. Qed.

Lemma is_empty_snoc (cur : string) (c : ascii) : PyStr.is_empty (PyStr.snoc cur c) = false.
Proof. destruct cur; reflexivity. Qed.

(** The first token of a line that is being read: it starts with what has
    been read. *)
Lemma split_from_first (s cur tok : string) (rest : list string) :
  PyStr.is_empty cur = false ->
  PyStr.split_from cur s = tok :: rest ->
  exists w tail, s = (w ++ tail)%string /\ tok = (cur ++ w)%string.
Proof.
  revert cur. induction s as [| c r IH]; intros cur Hcur; cbn.
  - rewrite Hcur. intros [= <- _]. exists EmptyString, EmptyString.
    split; [reflexivity |]. now rewrite append_empty_r.
  - destruct (PyStr.is_space c).
    + rewrite Hcur. intros [= <- _]. exists EmptyString, (String c r).
      split; [reflexivity |]. now rewrite append_empty_r.
    + intros H. apply IH in H; [| apply is_empty_snoc].
      destruct H as (w & tail & -> & ->).
      exists (String c w), tail. split; [reflexivity |].
      unfold PyStr.snoc. now rewrite append_assoc.
Qed.

(** The first token of a line is how the line starts once its leading
    whitespace is removed. *)
Lemma split_lstrip (s tok : string) (rest : list string) :
  PyStr.split s = tok :: rest ->
  exists tail, PyStr.lstrip s = (tok ++ tail)%string.
Proof.
  unfold PyStr.split. induction s as [| c r IH]; cbn.
  - discriminate.
  - destruct (PyStr.is_space c) eqn:Hc.
    + exact IH.
    + intros H. apply split_from_first in H; [| reflexivity].
      destruct H as (w & tail & -> & ->). exists tail. reflexivity.
Qed.

Lemma first_token_default (line : string) (rest : list string) :
  PyStr.split line = "default"%string :: rest ->
  PyStr.startswith (PyStr.strip line) "default" = true.
Proof.
  intros H. apply split_lstrip in H. destruct H as (tail & H).
  unfold PyStr.strip, PyStr.startswith. rewrite H. cbn.
  destruct (PyStr.rstrip tail); reflexivity.
Qed.

Lemma default_route_skip (line : string) (lines : list string) :
  selected line = false ->
  default_route (line :: lines) = default_route lines.
Proof.
  unfold selected. intros H. cbn [default_route].
  apply andb_false_iff in H. destruct H as [-> | ->]; [reflexivity |].
  destruct (PyStr.startswith (PyStr.strip line) "default"); reflexivity.
Qed.

Lemma default_route_first (before after : list string) (line : string) :
  Forall (fun l => selected l = false) before ->
  selected line = true ->
  default_route (before ++ line :: after) = nth_error (PyStr.split line) 2.
Proof.
  intros Hb Hl. induction Hb as [| l before Hsel _ IH]; cbn [app].
  - cbn [default_route]. unfold selected in Hl.
    apply andb_prop in Hl. destruct Hl as [-> ->]. reflexivity.
  - rewrite (default_route_skip l _ Hsel). exact IH.
Qed.

Lemma default_route_none (lines : list string) :
  Forall (fun l => selected l = false) lines ->
  default_route lines = None.
Proof.
  intros H. induction H as [| l lines Hsel _ IH]; [reflexivity |].
  rewrite (default_route_skip l _ Hsel). exact IH.
Qed.

Lemma selected_third (line : string) :
  selected line = true -> exists ip, nth_error (PyStr.split line) 2 = Some ip.
Proof.
  unfold selected. intros H. apply andb_prop in H. destruct H as [_ H].
  apply Nat.leb_le in H.
  destruct (PyStr.split line) as [| a [| b [| c l]]]; cbn in H; try lia.
  exists c. reflexivity.
Qed.

(** C7, as amended.  When the routing command returns its output,
    [get_router_ip] returns what the loop finds in it, and when the
    command raises a [SubprocessError] (a non-zero exit status, a timeout)
    it returns no value; in both cases it does not raise.  The loop returns
    the third token of the first line that, stripped, starts with "default"
    and has at least three tokens (a line whose first token is "default"
    starts so), and no value when there is no such line.  For
    "default via 192.168.1.1 dev eth0 proto dhcp", alone or followed by
    other routes, it returns "192.168.1.1"; for an output with no default
    route it returns no value.
    The aggregator shows a router probe that returns no value as
    "Not available", which is not an "Error: " text. *)
Theorem get_router_ip_outcomes :
  (forall env t stdout,
      subprocess_run env t = Return stdout ->
      fst (get_router_ip env t)
      = Return (default_route (PyStr.splitlines stdout))) /\
  (forall env t e,
      subprocess_run env t = Raise e ->
      isinstance e SubprocessError = true ->
      fst (get_router_ip env t) = Return None) /\
  (forall msg,
      isinstance (Exn TimeoutExpired msg) SubprocessError = true /\
      isinstance (Exn CalledProcessError msg) SubprocessError = true) /\
  (forall before line after,
      Forall (fun l => selected l = false) before ->
      selected line = true ->
      exists ip,
        nth_error (PyStr.split line) 2 = Some ip /\
        default_route (before ++ line :: after) = Some ip) /\
  (forall lines,
      Forall (fun l => selected l = false) lines ->
      default_route lines = None) /\
  (forall line rest,
      PyStr.split line = "default" :: rest ->
      PyStr.startswith (PyStr.strip line) "default" = true) /\
  default_route (PyStr.splitlines "default via 192.168.1.1 dev eth0 proto dhcp")
  = Some "192.168.1.1" /\
  default_route (PyStr.splitlines mock_ip_route_output) = Some "192.168.1.1" /\
  default_route
    (PyStr.splitlines "192.168.1.0/24 dev eth0 proto kernel scope link")
  = None /\
  (forall self include_weather t info t',
      outcome (probe_router_ip self) (Return None) ->
      get_all_info self include_weather t = (Return info, t') ->
      dict_get info "Router IP" = Some "Not available") /\
  PyStr.startswith "Not available" "Error: " = false.
Proof.
  repeat apply conj.
  - intros env t stdout H. unfold get_router_ip. run. rewrite H. reflexivity.
  - intros env t e H He. unfold get_router_ip. run. rewrite H.
    cbn [find fst snd caught_by existsb]. rewrite He. reflexivity.
  - intros msg. split; reflexivity.
  - intros before line after Hb Hl.
    destruct (selected_third line Hl) as (ip & Hip). exists ip.
    split; [exact Hip |]. now rewrite default_route_first.
  - exact default_route_none.
  - exact first_token_default.
  - reflexivity.
  - reflexivity.
  - reflexivity.
  - intros self b t info t' Hr Hrun. apply get_all_info_inv in Hrun.
    destruct Hrun as (now & ew & ei & er & eu & _ & _ & _ & tr & _
                      & _ & _ & _ & H3 & _ & ->).
    rewrite Hr in H3. injection H3 as <-. destruct b; reflexivity.
  - reflexivity.
Qed.

(** ** The theorems at concrete inputs *)

(** [test_get_all_info_with_errors]: three probes raise and the router
    probe returns no value. *)
Lemma get_all_info_entries_witness :
  fst (get_all_info patched_with_errors true [])
  = Return [("Date/Time", "2023-12-01 12:00:00");
            ("Weather", "Error: Weather error");
            ("IP Address", "Error: IP error");
            ("Router IP", "Not available");
            ("Uptime", "Error: Uptime error")].
Proof.
  apply (get_all_info_entries patched_with_errors true "2023-12-01 12:00:00"
           (Raise (Exn WeatherAPIError "Weather error"))
           (Raise (Exn SystemInfoError "IP error"))
           (Raise (Exn SystemInfoError "Uptime error"))
           (Return None)).
  - intros t. reflexivity.
  - intros _. split; [intros t |]; reflexivity.
  - intros t. reflexivity.
  - reflexivity.
  - intros t. reflexivity.
  - exact I.
  - intros t. reflexivity.
  - reflexivity.
Defined.

(** C1 as stated fails where the router probe returns no value: the probe
    succeeds with [None], raising nothing, and its entry is the text
    "Not available", which is not the value it returned. *)
Lemma get_all_info_router_absent :
  outcome (probe_router_ip patched_with_errors) (Return None) /\
  fst (get_all_info patched_with_errors true [])
  = Return [("Date/Time", "2023-12-01 12:00:00");
            ("Weather", "Error: Weather error");
            ("IP Address", "Error: IP error");
            ("Router IP", "Not available");
            ("Uptime", "Error: Uptime error")].
Proof. split; [intros t |]; reflexivity. Qed.

Lemma patched_well_behaved (include_weather : bool) :
  well_behaved patched_with_errors include_weather.
Proof.
  repeat split.
  - intros t. exists "2023-12-01 12:00:00". reflexivity.
Qed.

Lemma get_all_info_keys_witness :
  exists info t',
    get_all_info patched_with_errors true [] = (Return info, t') /\
    keys info = ["Date/Time"; "Weather"; "IP Address"; "Router IP"; "Uptime"].
Proof.
  exact (proj1 (proj2 (get_all_info_keys patched_with_errors true))
           (patched_well_behaved true) []).
Defined.

(** The object [main] builds, in an environment where every probe
    succeeds. *)
Lemma mock_well_behaved (include_weather : bool) :
  well_behaved (SystemInfo (mock_env (Return clear_sky)) mock_config)
    include_weather.
Proof.
  repeat split.
  - intros t. eexists. reflexivity.
Qed.

Lemma main_info_data_city_witness :
  exists info t' tw,
    main_info_data (SystemInfo (mock_env (Return clear_sky)) mock_config)
      false (Some "Paris") [] = (Return info, t') /\
    dict_get info "Weather"
    = Some (shown (fst (get_weather (mock_env (Return clear_sky)) mock_config
                          (Some "Paris") tw))).
Proof.
  apply (proj2 (main_info_data_city
                  (SystemInfo (mock_env (Return clear_sky)) mock_config)
                  (Some "Paris") eq_refl)).
  - apply mock_well_behaved.
  - intros t. exact I.
Defined.

(** C4 as stated fails in every environment; here, in one where every
    probe succeeds: the map of the [--city] path has "Weather" last, the
    map of [get_all_info] with weather included has it second. *)
Lemma city_override_weather_last :
  keys (match fst (main_info_data
                     (SystemInfo (mock_env (Return clear_sky)) mock_config)
                     false (Some "Paris") []) with
        | Return info => info
        | Raise _ => []
        end)
  = ["Date/Time"; "IP Address"; "Router IP"; "Uptime"; "Weather"] /\
  keys (match fst (get_all_info
                     (SystemInfo (mock_env (Return clear_sky)) mock_config)
                     true []) with
        | Return info => info
        | Raise _ => []
        end)
  = ["Date/Time"; "Weather"; "IP Address"; "Router IP"; "Uptime"] /\
  ["Date/Time"; "IP Address"; "Router IP"; "Uptime"; "Weather"]
  <> ["Date/Time"; "Weather"; "IP Address"; "Router IP"; "Uptime"].
Proof. repeat split. discriminate. Qed.

(** [test_get_router_ip_timeout] *)
Lemma get_router_ip_outcomes_witness :
  fst (get_router_ip
         (with_ip_route
            (Raise (Exn TimeoutExpired
                      "Command '['ip', 'route']' timed out after 5 seconds"))
            (mock_env (Return clear_sky))) [])
  = Return None.
Proof.
  apply (proj1 (proj2 get_router_ip_outcomes)
           (with_ip_route
              (Raise (Exn TimeoutExpired
                        "Command '['ip', 'route']' timed out after 5 seconds"))
              (mock_env (Return clear_sky))) []
           (Exn TimeoutExpired
              "Command '['ip', 'route']' timed out after 5 seconds"));
    reflexivity.
Defined.

(** C7 as stated fails in two places.  Where the [ip] program is missing,
    [subprocess.run] raises [FileNotFoundError], which is no
    [SubprocessError], and [get_router_ip] raises it.  And for the output
    "defaultroute x 10.0.0.1" no line has "default" as its first token,
    yet the probe returns "10.0.0.1": the test is on how the line starts. *)
Lemma get_router_ip_not_as_stated :
  fst (get_router_ip
         (with_ip_route
            (Raise (Exn FileNotFoundError
                      "[Errno 2] No such file or directory: 'ip'"))
            (mock_env (Return clear_sky))) [])
  = Raise (Exn FileNotFoundError "[Errno 2] No such file or directory: 'ip'") /\
  isinstance (Exn FileNotFoundError "[Errno 2] No such file or directory: 'ip'")
    SubprocessError = false /\
  map (fun line => hd_error (PyStr.split line))
    (PyStr.splitlines "defaultroute x 10.0.0.1")
  = [Some "defaultroute"] /\
  fst (get_router_ip
         (with_ip_route (Return "defaultroute x 10.0.0.1")
            (mock_env (Return clear_sky))) [])
  = Return (Some "10.0.0.1").
Proof. repeat split. Qed.

(** * More of the code *)

(** ** format_table *)

Lemma length_append (a b : string) :
  String.length (a ++ b) = (String.length a + String.length b)%nat.
Proof. induction a as [| c a IH]; cbn; [reflexivity | now rewrite IH]. Qed.

Lemma length_times (c : ascii) (n : nat) : String.length (PyText.times c n) = n.
Proof. unfold PyText.times. induction n as [| n IH]; cbn; [reflexivity | now rewrite IH]. Qed.

Lemma length_ljust (s : string) (width : nat) :
  String.length (PyText.ljust s width) = Nat.max (String.length s) width.
Proof.
  unfold PyText.ljust, PyText.spaces. rewrite length_append.
  fold (PyText.times " " (width - String.length s)). rewrite length_times. lia.
Qed.

Lemma fold_left_append {A B : Type} (f : A -> B) (items : list A) (lines : list B) :
  fold_left (fun lines item => list_append lines (f item)) items lines
  = (lines ++ map f items)%list.
Proof.
  revert lines. induction items as [| item items IH]; intros lines; cbn.
  - now rewrite app_nil_r.
  - rewrite IH. unfold list_append. now rewrite <- app_assoc.
Qed.

(** The lines of the table: the header, the separator, and one row for
    each item, in the order of the map. *)
Lemma table_lines_rows (data : dict) (use_colors : bool) :
  table_lines data use_colors
  = table_header (label_width_of data) (value_width_of data) use_colors
    :: table_separator (label_width_of data) (value_width_of data) use_colors
    :: map (table_row (label_width_of data) (value_width_of data) use_colors) data.
Proof. unfold table_lines. cbv zeta. now rewrite fold_left_append. Qed.

Lemma label_fits (data : dict) :
  Forall (fun item => (String.length (fst item) <= label_width_of data)%nat) data.
Proof.
  unfold label_width_of.
  assert (H := proj1 (list_max_le (map (fun item => String.length (fst item)) data) _)
                 (Nat.le_refl _)).
  rewrite Forall_map in H. exact H.
Qed.

Lemma value_fits (data : dict) :
  Forall (fun item => (String.length (snd item) <= value_width_of data)%nat) data.
Proof.
  unfold value_width_of.
  assert (H := proj1 (list_max_le (map (fun item => String.length (snd item)) data) _)
                 (Nat.le_refl _)).
  rewrite Forall_map in H. exact H.
Qed.

(** X1.  Without colours, the table of [format_table] has two lines more
    than the map has items, and the separator and every row have the same
    length: the widest label, the widest value, and the three characters
    of " | ".  The header has that length too when the widest label has at
    least the four characters of "Item" and the widest value at least the
    five of "Value"; otherwise the header is longer than the rows, since
    the widths are taken from the items alone. *)
Theorem table_lines_aligned (data : dict) :
  let width := (label_width_of data + value_width_of data + 3)%nat in
  List.length (table_lines data false) = (2 + List.length data)%nat /\
  Forall (fun line => String.length line = width) (tl (table_lines data false)) /\
  String.length (hd EmptyString (table_lines data false))
  = (Nat.max 4 (label_width_of data) + Nat.max 5 (value_width_of data) + 3)%nat.
Proof.
  cbv zeta. rewrite table_lines_rows. cbn [hd tl List.length]. rewrite length_map.
  split; [reflexivity |]. split.
  - constructor.
    + unfold table_separator. apply length_times.
    + rewrite Forall_map. pose proof (label_fits data) as Hl.
      pose proof (value_fits data) as Hv.
      rewrite Forall_forall in *. intros [label value] Hin.
      specialize (Hl _ Hin). specialize (Hv _ Hin). cbn [fst snd] in *.
      unfold table_row. rewrite !length_append, !length_ljust. cbn. lia.
  - unfold table_header. rewrite !length_append, !length_ljust. cbn. lia.
Qed.

Lemma contains_append (c : ascii) (a b : string) :
  Py.contains c (a ++ b) = Py.contains c a || Py.contains c b.
Proof.
  induction a as [| x a IH]; cbn; [reflexivity |].
  rewrite IH. now rewrite orb_assoc.
Qed.

Lemma contains_times (c d : ascii) (n : nat) :
  Ascii.eqb c d = false -> Py.contains c (PyText.times d n) = false.
Proof.
  intros H. unfold PyText.times. induction n as [| n IH]; cbn; [reflexivity |].
  now rewrite H, IH.
Qed.

Lemma contains_ljust (c : ascii) (s : string) (width : nat) :
  Ascii.eqb c " " = false ->
  Py.contains c (PyText.ljust s width) = Py.contains c s.
Proof.
  intros H. unfold PyText.ljust, PyText.spaces. rewrite contains_append.
  fold (PyText.times " " (width - String.length s)).
  rewrite (contains_times _ _ _ H). apply orb_false_r.
Qed.

Lemma contains_join (c : ascii) (sep : string) (lines : list string) :
  Py.contains c sep = false ->
  Forall (fun line => Py.contains c line = false) lines ->
  Py.contains c (PyStr.join sep lines) = false.
Proof.
  intros Hsep H. unfold PyStr.join. induction H as [| line lines Hl _ IH]; [reflexivity |].
  destruct lines as [| line' lines]; cbn [String.concat]; [exact Hl |].
  rewrite !contains_append, Hl, Hsep. exact IH.
Qed.

Lemma format_table_lines (data : dict) (use_colors : bool) :
  data <> [] ->
  format_table data use_colors = PyStr.join newline (table_lines data use_colors).
Proof. destruct data; [congruence | reflexivity]. Qed.

(** X2.  With [use_colors=False] the output of [format_table] holds no
    escape character, and so no colour code, unless a label or a value of
    the map holds one. *)
Theorem format_table_plain (data : dict) :
  Forall (fun item => Py.contains Colors.ESC (fst item) = false
                      /\ Py.contains Colors.ESC (snd item) = false) data ->
  Py.contains Colors.ESC (format_table data false) = false.
Proof.
  intros Hdata. destruct data as [| item data]; [reflexivity |].
  rewrite format_table_lines by discriminate.
  revert Hdata. generalize (item :: data). clear. intros data Hdata.
  apply contains_join; [reflexivity |].
  rewrite table_lines_rows. constructor; [| constructor].
  - unfold table_header. rewrite !contains_append, !contains_ljust by reflexivity.
    reflexivity.
  - unfold table_separator. now apply contains_times.
  - apply Forall_map. eapply Forall_impl; [| exact Hdata].
    intros [label value] [Hl Hv]. cbn [fst snd] in *. unfold table_row.
    rewrite !contains_append, !contains_ljust by reflexivity.
    now rewrite Hl, Hv.
Qed.

(** The map of [test_format_table_without_colors]. *)
Lemma format_table_plain_witness :
  Py.contains Colors.ESC
    (format_table [("IP Address", "192.168.1.100"); ("Weather", "Clear sky")] false)
  = false.
Proof.
  apply (format_table_plain
           [("IP Address", "192.168.1.100"); ("Weather", "Clear sky")]).
  repeat constructor.
Defined.

(** ** safe_get_nested *)

Lemma at_path_unique (data : pyval) (keys : list string) (v w : pyval) :
  at_path data keys v -> at_path data keys w -> v = w.
Proof.
  intros Hv. revert w. induction Hv as [v | items key keys v u Hl _ IH]; intros w Hw.
  - now inversion Hw.
  - inversion Hw; subst. rewrite Hl in *.
    match goal with H : Some _ = Some _ |- _ => injection H as <- end.
    now apply IH.
Qed.

Lemma safe_get_nested_found (data : pyval) (keys : list string) (default v : pyval) :
  at_path data keys v -> safe_get_nested data keys default = v.
Proof.
  induction 1 as [v | items key keys v w Hl _ IH]; cbn.
  - reflexivity.
  - now rewrite Hl.
Qed.

Lemma safe_get_nested_missing (data : pyval) (keys : list string) (default : pyval) :
  (forall v, ~ at_path data keys v) -> safe_get_nested data keys default = default.
Proof.
  revert data. induction keys as [| key keys IH]; intros data Hno.
  - exfalso. apply (Hno data). constructor.
  - cbn. destruct data; try reflexivity.
    destruct (Py.lookup key items) as [current |] eqn:Hl; [| reflexivity].
    apply IH. intros v Hv. apply (Hno v). econstructor; eauto.
Qed.

(** X3.  [safe_get_nested(data, *keys, default=default)] is the value at
    the path [keys] when every step of the path exists (a value that is
    there is returned as it is, also when it is [None] or empty), and
    [default] when a step is missing or meets a value that is no object;
    it never gives anything else, and a path has at most one value. *)
Theorem safe_get_nested_path (data : pyval) (keys : list string) (default : pyval) :
  (forall v, at_path data keys v -> safe_get_nested data keys default = v) /\
  ((forall v, ~ at_path data keys v) -> safe_get_nested data keys default = default) /\
  (at_path data keys (safe_get_nested data keys default)
   \/ safe_get_nested data keys default = default) /\
  (forall v w, at_path data keys v -> at_path data keys w -> v = w).
Proof.
  split; [intros v; apply safe_get_nested_found |].
  split; [apply safe_get_nested_missing |].
  split; [| apply at_path_unique].
  revert data. induction keys as [| key keys IH]; intros data.
  - left. constructor.
  - cbn. destruct data; auto.
    destruct (Py.lookup key items) as [current |] eqn:Hl; auto.
    destruct (IH current) as [H | H]; [left | right; exact H].
    econstructor; eauto.
Qed.

(** The temperature of [clear_sky], and a field it does not have. *)
Lemma safe_get_nested_path_witness :
  safe_get_nested clear_sky ["main"; "temp"] PyNone = PyFloat "25.5" /\
  safe_get_nested clear_sky ["main"; "humidity"] (PyInt 0) = PyInt 0.
Proof.
  split.
  - apply (proj1 (safe_get_nested_path clear_sky ["main"; "temp"] PyNone)).
    apply at_path_key with (v := PyDict [("temp", PyFloat "25.5")]);
      [reflexivity |].
    apply at_path_key with (v := PyFloat "25.5"); [reflexivity |].
    apply at_path_here.
  - apply (proj1 (proj2 (safe_get_nested_path clear_sky ["main"; "humidity"]
                           (PyInt 0)))).
    intros v H. inversion H as [| items key keys u w Hl Hrest]; subst.
    cbn in Hl. injection Hl as <-.
    inversion Hrest as [| items' key' keys' u' w' Hl' Hrest']; subst.
    cbn in Hl'. discriminate.
Defined.

(** X4.  Looking up a path in two steps gives what looking it up at once
    gives: when the first part of the path exists, the lookup goes on from
    the value found there; when it does not, the result is [default]
    whatever follows. *)
Theorem safe_get_nested_app (data : pyval) (keys1 keys2 : list string)
    (default : pyval) :
  (forall v, at_path data keys1 v ->
             safe_get_nested data (keys1 ++ keys2) default
             = safe_get_nested v keys2 default) /\
  ((forall v, ~ at_path data keys1 v) ->
   safe_get_nested data (keys1 ++ keys2) default = default).
Proof.
  split.
  - intros v Hv. induction Hv as [v | items key keys v w Hl _ IH]; cbn.
    + reflexivity.
    + now rewrite Hl.
  - revert data. induction keys1 as [| key keys IH]; intros data Hno.
    + exfalso. apply (Hno data). constructor.
    + cbn. destruct data; try reflexivity.
      destruct (Py.lookup key items) as [current |] eqn:Hl; [| reflexivity].
      apply IH. intros v Hv. apply (Hno v). econstructor; eauto.
Qed.

Lemma safe_get_nested_app_witness :
  safe_get_nested clear_sky (["main"] ++ ["temp"]) PyNone
  = safe_get_nested (PyDict [("temp", PyFloat "25.5")]) ["temp"] PyNone.
Proof.
  apply (proj1 (safe_get_nested_app clear_sky ["main"] ["temp"] PyNone)).
  apply at_path_key with (v := PyDict [("temp", PyFloat "25.5")]);
    [reflexivity | apply at_path_here].
Defined.

(** ** get_ip_address and get_uptime *)

Lemma get_ip_address_raises_declared (env : Env) :
  (forall t, declared [Exception] (socket_getsockname env t)) ->
  (forall t, declared [Exception] (gethostbyname env t)) ->
  forall t, declared [SystemInfoError] (fst (get_ip_address env t)).
Proof.
  intros Hs Hh t. unfold get_ip_address. run. specialize (Hs t).
  destruct (socket_getsockname env t) as [ip | e]; [exact I |].
  cbn [declared] in Hs. cbn [find fst snd]. rewrite Hs. cbn [snd].
  match goal with |- context [gethostbyname env ?t1] => specialize (Hh t1);
    destruct (gethostbyname env t1) as [ip | e'] end; [exact I |].
  cbn [declared] in Hh. cbn [find fst snd]. rewrite Hh. reflexivity.
Qed.

Lemma get_router_ip_raises_declared (env : Env) :
  (forall t, declared [Exception] (subprocess_run env t)) ->
  forall t, declared [Exception] (fst (get_router_ip env t)).
Proof.
  intros Hr t. unfold get_router_ip. run. specialize (Hr t).
  destruct (subprocess_run env t) as [out | e]; [exact I |].
  cbn [find fst snd]. destruct (caught_by [SubprocessError; TimeoutExpired] e);
    [exact I | exact Hr].
Qed.

Lemma get_uptime_raises_declared (env : Env) :
  (forall t, exists found, uptime_exists env t = Return found) ->
  (forall t, declared [OSError; ValueError; IndexError] (uptime_read env t)) ->
  (forall t negative, uptime_read env t <> Return (Inf negative)) ->
  forall t, declared [SystemInfoError] (fst (get_uptime env t)).
Proof.
  intros Hx Hr Hfin t. unfold get_uptime. run.
  destruct (Hx t) as (found & ->).
  destruct found; cbn [negb]; [| reflexivity].
  specialize (Hr (UptimeExists :: t)). specialize (Hfin (UptimeExists :: t)).
  destruct (uptime_read env (UptimeExists :: t)) as [[seconds | negative |] | e].
  - exact I.
  - now elim (Hfin negative).
  - reflexivity.
  - cbn [declared] in Hr. cbn [find fst snd]. rewrite Hr. reflexivity.
Qed.

(** On a finite number the two forms of [format_uptime] agree. *)
Lemma format_uptime_float_finite (seconds : Q) :
  format_uptime_float (Finite seconds) = Return (format_uptime seconds).
Proof. reflexivity. Qed.

(** X5.  [get_ip_address] returns the address of the socket when the
    socket gives one, and then it neither logs nor asks the resolver.
    When the socket raises an [Exception], it logs the warning
    "Failed to get IP via socket: <message>" and returns what the resolver
    gives for the host name.  When the resolver raises an [Exception]
    too, it raises [SystemInfoError] with
    "Cannot determine IP address: <message>", where the message is the
    resolver's: the socket's error is only in the log.  So when the socket
    and the resolver raise nothing but [Exception]s, [get_ip_address]
    returns or raises [SystemInfoError]. *)
Theorem get_ip_address_fallback (env : Env) (t : Trace) :
  (forall ip, socket_getsockname env t = Return ip ->
              get_ip_address env t = (Return ip, SocketProbe :: t)) /\
  (forall e ip,
      socket_getsockname env t = Raise e -> isinstance e Exception = true ->
      gethostbyname env
        (Log WARNING ("Failed to get IP via socket: " ++ str_of e)
           :: SocketProbe :: t) = Return ip ->
      get_ip_address env t
      = (Return ip,
         HostnameLookup
           :: Log WARNING ("Failed to get IP via socket: " ++ str_of e)
           :: SocketProbe :: t)) /\
  (forall e e',
      socket_getsockname env t = Raise e -> isinstance e Exception = true ->
      gethostbyname env
        (Log WARNING ("Failed to get IP via socket: " ++ str_of e)
           :: SocketProbe :: t) = Raise e' ->
      isinstance e' Exception = true ->
      fst (get_ip_address env t)
      = Raise (Exn SystemInfoError ("Cannot determine IP address: " ++ str_of e'))) /\
  ((forall t', declared [Exception] (socket_getsockname env t')) ->
   (forall t', declared [Exception] (gethostbyname env t')) ->
   declared [SystemInfoError] (fst (get_ip_address env t))).
Proof.
  split; [| split; [| split]].
  - intros ip H. unfold get_ip_address. run. rewrite H. reflexivity.
  - intros e ip H He. unfold get_ip_address. run. rewrite H.
    cbn [find fst snd caught_by existsb]. rewrite He.
    cbn [orb snd]. intros ->. reflexivity.
  - intros e e' H He. unfold get_ip_address. run. rewrite H.
    cbn [find fst snd caught_by existsb]. rewrite He.
    cbn [orb snd]. intros -> He'. cbn [find fst snd caught_by existsb].
    rewrite He'. reflexivity.
  - intros Hs Hh. now apply get_ip_address_raises_declared.
Qed.

(** [test_get_ip_address_fallback_to_hostname] *)
Lemma get_ip_address_fallback_witness :
  get_ip_address offline_env []
  = (Return "127.0.0.1",
     [HostnameLookup; Log WARNING "Failed to get IP via socket: Network error";
      SocketProbe]).
Proof.
  apply (proj1 (proj2 (get_ip_address_fallback offline_env []))
           (Exn Exception "Network error") "127.0.0.1");
    reflexivity.
Defined.

(** X6.  [get_uptime] raises [SystemInfoError]
    "Cannot read system uptime: /proc/uptime not found" when the file
    does not exist, and then it does not try to read it.  When the file
    exists and its first field is read as a finite number, [get_uptime]
    returns [format_uptime] of that number.  When reading raises an
    [OSError], a [ValueError] or an [IndexError], it raises
    [SystemInfoError] "Cannot parse uptime: <message>"; so it does when the
    number read is a NaN, for which [int] raises a [ValueError] inside
    [format_uptime].  Three things leave [get_uptime] as they are, since
    no clause catches them: the [OverflowError] that [int] raises when the
    number read is an infinity, which is no [SystemInfoError]; any other
    exception of the read; and an exception of the test whether the file
    exists, which is outside the [try].  So when that test raises nothing,
    and reading raises nothing but the three classes and gives no
    infinity, [get_uptime] returns or raises [SystemInfoError]. *)
Theorem get_uptime_outcomes (env : Env) (t : Trace) :
  (uptime_exists env t = Return false ->
   get_uptime env t
   = (Raise (Exn SystemInfoError
               "Cannot read system uptime: /proc/uptime not found"),
      UptimeExists :: t)) /\
  (forall seconds,
      uptime_exists env t = Return true ->
      uptime_read env (UptimeExists :: t) = Return (Finite seconds) ->
      fst (get_uptime env t) = Return (format_uptime seconds)) /\
  (forall e,
      uptime_exists env t = Return true ->
      uptime_read env (UptimeExists :: t) = Raise e ->
      caught_by [OSError; ValueError; IndexError] e = true ->
      fst (get_uptime env t)
      = Raise (Exn SystemInfoError ("Cannot parse uptime: " ++ str_of e))) /\
  (uptime_exists env t = Return true ->
   uptime_read env (UptimeExists :: t) = Return NaN ->
   fst (get_uptime env t)
   = Raise (Exn SystemInfoError
              "Cannot parse uptime: cannot convert float NaN to integer")) /\
  (forall negative,
      uptime_exists env t = Return true ->
      uptime_read env (UptimeExists :: t) = Return (Inf negative) ->
      get_uptime env t
      = (Raise (Exn OverflowError "cannot convert float infinity to integer"),
         UptimeRead :: UptimeExists :: t) /\
      caught_by [SystemInfoError]
        (Exn OverflowError "cannot convert float infinity to integer")
      = false) /\
  (forall e,
      uptime_exists env t = Return true ->
      uptime_read env (UptimeExists :: t) = Raise e ->
      caught_by [OSError; ValueError; IndexError] e = false ->
      get_uptime env t = (Raise e, UptimeRead :: UptimeExists :: t)) /\
  (forall e,
      uptime_exists env t = Raise e ->
      get_uptime env t = (Raise e, UptimeExists :: t)) /\
  ((forall t', exists found, uptime_exists env t' = Return found) ->
   (forall t', declared [OSError; ValueError; IndexError] (uptime_read env t')) ->
   (forall t' negative, uptime_read env t' <> Return (Inf negative)) ->
   declared [SystemInfoError] (fst (get_uptime env t))).
Proof.
  repeat apply conj.
  - intros H. unfold get_uptime. run. rewrite H. reflexivity.
  - intros seconds H Hr. unfold get_uptime. run. rewrite H. cbn [negb].
    rewrite Hr. reflexivity.
  - intros e H Hr He. unfold get_uptime. run. rewrite H. cbn [negb].
    rewrite Hr. cbn [find fst snd]. rewrite He. reflexivity.
  - intros H Hr. unfold get_uptime. run. rewrite H. cbn [negb].
    rewrite Hr. reflexivity.
  - intros negative H Hr. unfold get_uptime. run. rewrite H. cbn [negb].
    rewrite Hr. split; reflexivity.
  - intros e H Hr He. unfold get_uptime. run. rewrite H. cbn [negb].
    rewrite Hr. cbn [find fst snd]. rewrite He. reflexivity.
  - intros e H. unfold get_uptime. run. rewrite H. reflexivity.
  - intros Hx Hr Hfin. now apply get_uptime_raises_declared.
Qed.

(** [test_get_uptime_file_not_found]; the uptime of [mock_env]; and a
    file that holds "inf". *)
Lemma get_uptime_outcomes_witness :
  get_uptime offline_env []
  = (Raise (Exn SystemInfoError
              "Cannot read system uptime: /proc/uptime not found"),
     [UptimeExists]) /\
  fst (get_uptime (mock_env (Return clear_sky)) []) = Return "3h 25m 45s" /\
  get_uptime (with_uptime (Return (Inf false)) (mock_env (Return clear_sky))) []
  = (Raise (Exn OverflowError "cannot convert float infinity to integer"),
     [UptimeRead; UptimeExists]).
Proof.
  split; [| split].
  - apply (proj1 (get_uptime_outcomes offline_env [])). reflexivity.
  - apply (proj1 (proj2 (get_uptime_outcomes (mock_env (Return clear_sky)) []))
             (1234567 # 100)%Q);
      reflexivity.
  - apply (proj1 (proj2 (proj2 (proj2 (proj2
             (get_uptime_outcomes
                (with_uptime (Return (Inf false)) (mock_env (Return clear_sky)))
                [])))))
             false);
      reflexivity.
Defined.

(** With "inf" in the uptime file the error passes [get_all_info] too, so
    no map is returned, and [main] returns 1. *)
Lemma get_all_info_infinite_uptime :
  fst (get_all_info
         (SystemInfo (with_uptime (Return (Inf false)) (mock_env (Return clear_sky)))
            mock_config)
         false [])
  = Raise (Exn OverflowError "cannot convert float infinity to integer") /\
  exit_code (main (Return mock_config)
               (with_uptime (Return (Inf false)) (mock_env (Return clear_sky)))
               pipe no_weather_args Logging.fresh [])
  = Return 1.
Proof. split; reflexivity. Qed.

(** ** get_weather, more *)

Lemma get_weather_requests (env : Env) (config : Config) (city : option string)
    (t : Trace) :
  (http_calls (snd (get_weather env config city t)) <= http_calls t + 1)%nat.
Proof.
  unfold get_weather. run. cbv zeta.
  repeat (break_match; cbn [fst snd find http_calls]); lia.
Qed.

(** X7.  One call of [get_weather] makes at most one request.  It makes
    exactly one, to the URL built from the template, the city and the key
    and with the configured timeout, whenever there is a key, the URL can
    be built and the timeout can be read, whatever the answer is.  It makes
    none when building the URL fails. *)
Theorem get_weather_one_request (env : Env) (config : Config)
    (city : option string) (t : Trace) :
  (http_calls (snd (get_weather env config city t)) <= http_calls t + 1)%nat /\
  (forall key url seconds,
      weather_api_key config = Some key -> key <> EmptyString ->
      str_format env (weather_url_template config)
        (Py.or_else city (default_city config)) key = Return url ->
      timeout config = Return seconds ->
      http_calls (snd (get_weather env config city t)) = (http_calls t + 1)%nat /\
      In (HttpGet url seconds) (snd (get_weather env config city t))) /\
  (forall key e,
      weather_api_key config = Some key ->
      str_format env (weather_url_template config)
        (Py.or_else city (default_city config)) key = Raise e ->
      http_calls (snd (get_weather env config city t)) = http_calls t).
Proof.
  split; [apply get_weather_requests |]. split.
  - intros key url seconds Hkey Hne Hfmt Hto. unfold get_weather.
    rewrite Hkey, (truthy_opt_some key Hne). cbn [negb]. run.
    rewrite Hfmt, Hto. cbv zeta.
    split; repeat (break_match; cbn [fst snd find http_calls In]);
      auto; lia.
  - intros key e Hkey Hfmt. unfold get_weather. rewrite Hkey.
    destruct (Py.truthy_opt (Some key)); cbn [negb]; [| reflexivity].
    run. rewrite Hfmt. reflexivity.
Qed.

(** [test_get_weather_api_error_response]: the answer is an error, and
    the request was made. *)
Lemma get_weather_one_request_witness :
  http_calls (snd (get_weather (mock_env (Return city_not_found)) mock_config
                     (Some "NonExistentCity") []))
  = 1%nat /\
  In (HttpGet
        "http://api.test.com/weather?q=NonExistentCity&appid=test_api_key&units=metric"
        10)
    (snd (get_weather (mock_env (Return city_not_found)) mock_config
            (Some "NonExistentCity") [])).
Proof.
  apply (proj1 (proj2 (get_weather_one_request (mock_env (Return city_not_found))
                         mock_config (Some "NonExistentCity") []))
           "test_api_key").
  - reflexivity.
  - discriminate.
  - reflexivity.
  - reflexivity.
Defined.

(** X8.  The [timeout] property is read inside the [try] block of
    [get_weather].  When it raises a [ValueError] (the value of
    REQUEST_TIMEOUT is no integer), [get_weather] raises [WeatherAPIError]
    with "Failed to parse weather data: <message>", though no weather data
    was received: no request is made. *)
Theorem get_weather_bad_timeout (env : Env) (config : Config)
    (city : option string) (t : Trace) (key url : string) (e : exn) :
  weather_api_key config = Some key -> key <> EmptyString ->
  str_format env (weather_url_template config)
    (Py.or_else city (default_city config)) key = Return url ->
  timeout config = Raise e ->
  isinstance e ValueError = true ->
  isinstance e RequestException = false ->
  fst (get_weather env config city t)
  = Raise (Exn WeatherAPIError ("Failed to parse weather data: " ++ str_of e)) /\
  http_calls (snd (get_weather env config city t)) = http_calls t.
Proof.
  intros Hkey Hne Hfmt Hto Hv Hr. unfold get_weather.
  rewrite Hkey, (truthy_opt_some key Hne). cbn [negb]. run.
  rewrite Hfmt, Hto. cbn [find fst snd caught_by existsb].
  rewrite Hr, Hv. cbn [orb]. rewrite ?orb_true_r. cbn [find fst snd].
  split; reflexivity.
Qed.

(** REQUEST_TIMEOUT=abc *)
Lemma get_weather_bad_timeout_witness :
  fst (get_weather (mock_env (Return clear_sky))
         (with_timeout
            (Raise (Exn ValueError
                      "invalid literal for int() with base 10: 'abc'"))
            mock_config)
         None [])
  = Raise (Exn WeatherAPIError
             "Failed to parse weather data: invalid literal for int() with base 10: 'abc'") /\
  http_calls (snd (get_weather (mock_env (Return clear_sky))
                     (with_timeout
                        (Raise (Exn ValueError
                                  "invalid literal for int() with base 10: 'abc'"))
                        mock_config)
                     None []))
  = http_calls [].
Proof.
  apply (get_weather_bad_timeout (mock_env (Return clear_sky))
           (with_timeout
              (Raise (Exn ValueError
                        "invalid literal for int() with base 10: 'abc'"))
              mock_config)
           None [] "test_api_key"
           "http://api.test.com/weather?q=TestCity&appid=test_api_key&units=metric"
           (Exn ValueError "invalid literal for int() with base 10: 'abc'")).
  - reflexivity.
  - discriminate.
  - reflexivity.
  - reflexivity.
  - reflexivity.
  - reflexivity.
Defined.

(** X9.  When the body of the answer has a [cod] that is not the integer
    200 (another number, the string "200", or no [cod] at all),
    [get_weather] raises [WeatherAPIError] with
    "Weather API error: <message>", where the message is the text of the
    body's [message] field, or "Unknown API error" when the body has none;
    the temperature and the weather list are not looked at. *)
Theorem get_weather_api_error (env : Env) (config : Config)
    (city : option string) (t : Trace) (data cod message : pyval) :
  transported env config city t data ->
  Py.get data "cod" PyNone = Return cod ->
  Py.eq_int cod 200 = false ->
  Py.get data "message" (PyStr "Unknown API error") = Return message ->
  fst (get_weather env config city t)
  = Raise (Exn WeatherAPIError ("Weather API error: " ++ Py.str message)).
Proof.
  intros (key & url & seconds & response & Hkey & Hne & Hfmt & Hto & Hget & Hrfs & Hjson)
         Hcod H200 Hmsg.
  unfold get_weather. rewrite Hkey, (truthy_opt_some key Hne). cbn [negb].
  run. rewrite Hfmt, Hto, Hget, Hrfs, Hjson, Hcod, H200. cbn [negb].
  rewrite Hmsg. reflexivity.
Qed.

(** [test_get_weather_api_error_response]; and a body whose [cod] is the
    string "200", with a complete report, is an error too. *)
Lemma get_weather_api_error_witness :
  fst (get_weather (mock_env (Return city_not_found)) mock_config
         (Some "NonExistentCity") [])
  = Raise (Exn WeatherAPIError "Weather API error: city not found") /\
  fst (get_weather
         (mock_env
            (Return (PyDict [("cod", PyStr "200");
                             ("main", PyDict [("temp", PyFloat "25.5")]);
                             ("weather",
                              PyList [PyDict [("description", PyStr "clear sky")]])])))
         mock_config None [])
  = Raise (Exn WeatherAPIError "Weather API error: Unknown API error").
Proof.
  split.
  - apply (get_weather_api_error _ mock_config (Some "NonExistentCity") [] _
             (PyInt 404) (PyStr "city not found")
             (mock_transported city_not_found (Some "NonExistentCity") []));
      reflexivity.
  - apply (get_weather_api_error _ mock_config None [] _
             (PyStr "200") (PyStr "Unknown API error")
             (mock_transported _ None []));
      reflexivity.
Defined.

(** In an environment that raises only what the two clauses of
    [get_weather] catch, and whose bodies have a weather field it can
    read, [get_weather] returns or raises [WeatherAPIError]. *)
Lemma get_weather_raises_declared (env : Env) (config : Config) :
  weather_env_ok env config ->
  forall city t, declared [WeatherAPIError] (fst (get_weather env config city t)).
Proof.
  intros (Hfmt & Hto & Hreq) city t. unfold get_weather.
  destruct (weather_api_key config) as [key |] eqn:Hkey; [| reflexivity].
  destruct (Py.truthy_opt (Some key)); cbn [negb]; [| reflexivity].
  cbv zeta. run.
  destruct (Hfmt (Py.or_else city (default_city config)) key eq_refl)
    as (url & Hurl).
  rewrite Hurl.
  destruct (timeout config) as [seconds | e] eqn:Hseconds.
  2:{ cbn [declared] in Hto. cbn [find fst snd].
      unfold caught_by in *. cbn [existsb] in *.
      destruct (isinstance e RequestException); cbn [orb find fst snd]; [reflexivity |].
      cbn [orb] in Hto. rewrite Hto. reflexivity. }
  match goal with |- context [requests_get env ?a ?b ?c] =>
    specialize (Hreq a _ key url seconds eq_refl Hurl eq_refl);
    destruct (requests_get env a b c) as [response | e] end.
  2:{ cbn [find fst snd]. unfold caught_by in *. cbn [existsb] in *.
      destruct (isinstance e RequestException); cbn [orb find fst snd]; [reflexivity |].
      cbn [orb] in Hreq. rewrite Hreq. reflexivity. }
  destruct Hreq as [Hrfs Hjson].
  destruct (raise_for_status response) as [[] | e].
  2:{ cbn [declared] in Hrfs. cbn [find fst snd].
      unfold caught_by in *. cbn [existsb] in *.
      destruct (isinstance e RequestException); cbn [orb find fst snd]; [reflexivity |].
      cbn [orb] in Hrfs. rewrite Hrfs. reflexivity. }
  destruct (json response) as [data | e].
  2:{ cbn [find fst snd]. unfold caught_by in *. cbn [existsb] in *.
      destruct (isinstance e RequestException); cbn [orb find fst snd]; [reflexivity |].
      cbn [orb] in Hjson. rewrite Hjson. reflexivity. }
  destruct Hjson as [(items & ->) Hshape].
  unfold weather_shape_ok in Hshape. cbn [Py.get] in *.
  destruct (match Py.lookup "cod" items with Some x => Return x | None => Return PyNone end)
    as [cod | e] eqn:Hcod; [| destruct (Py.lookup "cod" items); discriminate].
  destruct (Py.eq_int cod 200); cbn [negb].
  2:{ destruct (Py.lookup "message" items); reflexivity. }
  destruct (match Py.lookup "weather" items with Some x => Return x | None => Return (PyList []) end)
    as [w | e]; [| contradiction].
  destruct (Py.truthy w).
  - destruct w as [ | | | | | [| [ | | | | | | first] others] | ]; try contradiction.
    cbn [Py.len Py.getitem0 Py.get List.length].
    replace (0 <? Z.of_nat (S (List.length others))) with true
      by (symmetry; apply Z.ltb_lt; lia).
    destruct (Py.lookup "description" first);
      repeat (break_match; cbn [fst snd find declared]); auto.
  - repeat (break_match; cbn [fst snd find declared]); auto.
Qed.

Lemma weather_error_class (e : exn) :
  caught_by [WeatherAPIError] e = true -> class_of e = WeatherAPIError.
Proof. destruct e as [c msg]. destruct c; cbn; try discriminate; reflexivity. Qed.

(** The hypothesis holds in an environment whose [str.format] raises on a
    template that is not the configured one. *)
Lemma strict_weather_env_ok (items : list (string * pyval)) :
  weather_shape_ok (PyDict items) ->
  weather_env_ok (strict_format_env (Return (PyDict items))) mock_config.
Proof.
  intros Hshape. split; [| split].
  - intros city key _. eexists. reflexivity.
  - exact I.
  - intros t city key url seconds _ _ _. cbn.
    split; [exact I |]. split; [eauto | exact Hshape].
Qed.

(** X10.  Let the environment be such that the URL can be built from the
    configured template and key (for any city), that reading the timeout,
    the request to such a URL with the configured timeout,
    [raise_for_status] and [response.json()] raise only a
    [RequestException], a [KeyError], an [IndexError] or a [ValueError],
    and that a body which arrives is an object whose weather field is
    missing, empty, or a list that starts with an object.  Then every
    exception that leaves [get_weather] is a [WeatherAPIError], for every
    city: nothing else reaches the caller, and at most one request was
    made.  Nothing is asked of other templates, keys or URLs. *)
Theorem get_weather_declared (env : Env) (config : Config) :
  weather_env_ok env config ->
  forall city t e t',
    get_weather env config city t = (Raise e, t') ->
    class_of e = WeatherAPIError /\ isinstance e Exception = true /\
    (http_calls t' <= S (http_calls t))%nat.
Proof.
  intros Hok city t e t' Hrun.
  pose proof (get_weather_raises_declared env config Hok city t) as Hd.
  pose proof (get_weather_requests env config city t) as Hq.
  rewrite Hrun in Hd, Hq. cbn [fst snd declared] in Hd, Hq.
  apply weather_error_class in Hd. destruct e as [c msg]. cbn in Hd. subst c.
  repeat split; lia.
Qed.

(** [test_get_weather_api_error_response], where formatting the
    template "{" would raise. *)
Lemma get_weather_declared_witness :
  str_format (strict_format_env (Return city_not_found)) "{" "TestCity" "test_api_key"
  = Raise (Exn ValueError "Single '{' encountered in format string") /\
  class_of (Exn WeatherAPIError "Weather API error: city not found")
  = WeatherAPIError /\
  isinstance (Exn WeatherAPIError "Weather API error: city not found") Exception
  = true /\
  (http_calls
     [Log DEBUG "data={'cod': 404, 'message': 'city not found'}";
      HttpGet "http://api.test.com/weather?q=TestCity&appid=test_api_key&units=metric" 10;
      Log DEBUG "url='http://api.test.com/weather?q=TestCity&appid=test_api_key&units=metric'"]
   <= S (http_calls []))%nat.
Proof.
  split; [reflexivity |].
  apply (get_weather_declared (strict_format_env (Return city_not_found)) mock_config
           (strict_weather_env_ok
              [("cod", PyInt 404); ("message", PyStr "city not found")] I)
           None []).
  reflexivity.
Defined.

(** ** get_all_info, more *)

Section BlockMore.

Context {A : Type}.
Variables (probe : M A) (show : A -> string) (info : dict).
Variables (label failure : string) (classes : list exn_class).

(** One block of [get_all_info] raises exactly what its probe raises and
    its clause does not catch, and nothing is logged then. *)
Lemma block_raises (t t' : Trace) (e : exn) :
  try_except
    (v <- probe ;; ret (dict_set info label (show v)))
    [(classes, fun e =>
        log ERROR (failure ++ str_of e) ;;
        ret (dict_set info label ("Error: " ++ str_of e)))] t
  = (Raise e, t') ->
  probe t = (Raise e, t') /\ caught_by classes e = false.
Proof.
  run. destruct (probe t) as [[v | e0] t1]; cbn [find fst snd]; [discriminate |].
  destruct (caught_by classes e0) eqn:Hc; [discriminate |].
  intros [= <- <-]. auto.
Qed.

(** Besides the effects of its probe, a block only logs. *)
Lemma block_count (p : event -> bool) (t : Trace) :
  (forall lvl msg, p (Log lvl msg) = false) ->
  count_events p
    (snd (try_except
            (v <- probe ;; ret (dict_set info label (show v)))
            [(classes, fun e =>
                log ERROR (failure ++ str_of e) ;;
                ret (dict_set info label ("Error: " ++ str_of e)))] t))
  = count_events p (snd (probe t)).
Proof.
  intros Hp. run. destruct (probe t) as [[v | e0] t1]; cbn [find fst snd]; [reflexivity |].
  destruct (caught_by classes e0); cbn [snd count_events]; [| reflexivity].
  now rewrite Hp.
Qed.

End BlockMore.

(** X11.  [get_all_info] raises no exception of its own: an exception
    that leaves it was raised by one of the probes it called and is one
    that the [except] clause around that probe does not name (for the
    clock, which has no clause, any exception), and the run ends where
    that probe ended: the probes after it are not called. *)
Theorem get_all_info_raises (self : Probes) (include_weather : bool)
    (t t' : Trace) (e : exn) :
  get_all_info self include_weather t = (Raise e, t') ->
  exists t0,
    probe_current_time self t0 = (Raise e, t') \/
    (include_weather = true /\ probe_weather self None t0 = (Raise e, t')
     /\ caught_by [WeatherAPIError] e = false) \/
    (probe_ip_address self t0 = (Raise e, t')
     /\ caught_by [SystemInfoError] e = false) \/
    (probe_router_ip self t0 = (Raise e, t') /\ caught_by [Exception] e = false) \/
    (probe_uptime self t0 = (Raise e, t')
     /\ caught_by [SystemInfoError] e = false).
Proof.
  unfold get_all_info. intros H. cbv zeta in H.
  rewrite bind_run in H.
  destruct (probe_current_time self t) as [[now | e0] t0] eqn:H0.
  2:{ injection H as <- <-. exists t. auto. }
  next_raise H t0 H1.
  2:{ injection H as <- <-. destruct include_weather; [| discriminate].
      apply (block_raises _ (fun v => v)) in H1. exists t0. tauto. }
  next_raise H t1 H2.
  2:{ injection H as <- <-. apply (block_raises _ (fun v => v)) in H2.
      exists t1. tauto. }
  next_raise H t2 H3.
  2:{ injection H as <- <-. apply (block_raises _ router_ip_text) in H3.
      exists t2. tauto. }
  next_raise H t3 H4.
  2:{ injection H as <- <-. apply (block_raises _ (fun v => v)) in H4.
      exists t3. tauto. }
  discriminate.
Qed.

(** Ctrl-C while the socket is probed: the interrupt is no [Exception],
    so it passes [get_ip_address] and [get_all_info]. *)
Lemma get_all_info_raises_witness :
  exists t0,
    get_current_time
      (with_socket (Raise (Exn KeyboardInterrupt EmptyString))
         (mock_env (Return clear_sky))) t0
    = (Raise (Exn KeyboardInterrupt EmptyString), [SocketProbe; Now]) \/
    (false = true /\
     get_weather
       (with_socket (Raise (Exn KeyboardInterrupt EmptyString))
          (mock_env (Return clear_sky))) mock_config None t0
     = (Raise (Exn KeyboardInterrupt EmptyString), [SocketProbe; Now])
     /\ caught_by [WeatherAPIError] (Exn KeyboardInterrupt EmptyString) = false) \/
    (get_ip_address
       (with_socket (Raise (Exn KeyboardInterrupt EmptyString))
          (mock_env (Return clear_sky))) t0
     = (Raise (Exn KeyboardInterrupt EmptyString), [SocketProbe; Now])
     /\ caught_by [SystemInfoError] (Exn KeyboardInterrupt EmptyString) = false) \/
    (get_router_ip
       (with_socket (Raise (Exn KeyboardInterrupt EmptyString))
          (mock_env (Return clear_sky))) t0
     = (Raise (Exn KeyboardInterrupt EmptyString), [SocketProbe; Now])
     /\ caught_by [Exception] (Exn KeyboardInterrupt EmptyString) = false) \/
    (get_uptime
       (with_socket (Raise (Exn KeyboardInterrupt EmptyString))
          (mock_env (Return clear_sky))) t0
     = (Raise (Exn KeyboardInterrupt EmptyString), [SocketProbe; Now])
     /\ caught_by [SystemInfoError] (Exn KeyboardInterrupt EmptyString) = false).
Proof.
  apply (get_all_info_raises
           (SystemInfo
              (with_socket (Raise (Exn KeyboardInterrupt EmptyString))
                 (mock_env (Return clear_sky)))
              mock_config)
           false [] [SocketProbe; Now] (Exn KeyboardInterrupt EmptyString)).
  reflexivity.
Defined.

Lemma declared_exception {A : Type} (r : result A) :
  declared [WeatherAPIError] r -> declared [Exception] r.
Proof.
  destruct r as [v | [c msg]]; [auto |].
  destruct c; cbn; auto.
Qed.

(** *** What the probes leave in the trace *)

Lemma http_calls_count (t : Trace) : http_calls t = count_events is_http t.
Proof.
  induction t as [| ev t IH]; [reflexivity |].
  destruct ev; cbn [http_calls count_events is_http]; rewrite IH; reflexivity.
Qed.

Lemma get_ip_address_effects (env : Env) (t : Trace) :
  count_events is_now (snd (get_ip_address env t)) = count_events is_now t /\
  count_events is_run (snd (get_ip_address env t)) = count_events is_run t /\
  count_events is_http (snd (get_ip_address env t)) = count_events is_http t.
Proof.
  unfold get_ip_address. run.
  repeat (break_match; cbn [fst snd find count_events is_now is_run is_http]);
    auto.
Qed.

Lemma get_router_ip_effects (env : Env) (t : Trace) :
  count_events is_now (snd (get_router_ip env t)) = count_events is_now t /\
  count_events is_run (snd (get_router_ip env t)) = S (count_events is_run t) /\
  count_events is_http (snd (get_router_ip env t)) = count_events is_http t.
Proof.
  unfold get_router_ip. run.
  repeat (break_match; cbn [fst snd find count_events is_now is_run is_http]);
    auto.
Qed.

Lemma get_uptime_effects (env : Env) (t : Trace) :
  count_events is_now (snd (get_uptime env t)) = count_events is_now t /\
  count_events is_run (snd (get_uptime env t)) = count_events is_run t /\
  count_events is_http (snd (get_uptime env t)) = count_events is_http t.
Proof.
  unfold get_uptime. run.
  repeat (break_match; cbn [fst snd find count_events is_now is_run is_http]);
    auto.
Qed.

Lemma get_weather_effects (env : Env) (config : Config) (city : option string)
    (t : Trace) :
  count_events is_now (snd (get_weather env config city t)) = count_events is_now t /\
  count_events is_run (snd (get_weather env config city t)) = count_events is_run t.
Proof.
  unfold get_weather. run. cbv zeta.
  split; repeat (break_match; cbn [fst snd find count_events is_now is_run]);
    auto.
Qed.

Lemma block_effects {A : Type} (probe : M A) (show : A -> string) (info : dict)
    (label failure : string) (classes : list exn_class) (t t' : Trace)
    (r : result dict) :
  try_except
    (v <- probe ;; ret (dict_set info label (show v)))
    [(classes, fun e =>
        log ERROR (failure ++ str_of e) ;;
        ret (dict_set info label ("Error: " ++ str_of e)))] t
  = (r, t') ->
  count_events is_now t' = count_events is_now (snd (probe t)) /\
  count_events is_run t' = count_events is_run (snd (probe t)) /\
  count_events is_http t' = count_events is_http (snd (probe t)).
Proof.
  intros H.
  pose proof (block_count probe show info label failure classes is_now t
                (fun _ _ => eq_refl)) as H1.
  pose proof (block_count probe show info label failure classes is_run t
                (fun _ _ => eq_refl)) as H2.
  pose proof (block_count probe show info label failure classes is_http t
                (fun _ _ => eq_refl)) as H3.
  rewrite H in H1, H2, H3. auto.
Qed.

(** A run of [get_all_info] of the class, up to the point where it
    returns or raises: the clock is read once, the routing command runs at
    most once and once when the run returns, and without weather no
    request is made. *)
Lemma get_all_info_effects (env : Env) (config : Config) (b : bool)
    (t t' : Trace) (r : result dict) :
  get_all_info (SystemInfo env config) b t = (r, t') ->
  count_events is_now t' = S (count_events is_now t) /\
  (count_events is_run t' <= S (count_events is_run t))%nat /\
  ((exists info, r = Return info) ->
   count_events is_run t' = S (count_events is_run t)) /\
  (b = false -> http_calls t' = http_calls t) /\
  (http_calls t' <= S (http_calls t))%nat.
Proof.
  rewrite !http_calls_count.
  unfold get_all_info, SystemInfo.
  cbn [probe_current_time probe_weather probe_ip_address probe_router_ip probe_uptime].
  cbv zeta. intros H. rewrite bind_run in H.
  unfold get_current_time at 1 in H.
  next_raise H (Now :: t) H1.
  2:{ injection H as <- <-. destruct b; [| discriminate].
      apply (block_effects _ (fun v => v)) in H1. destruct H1 as (N1 & R1 & P1).
      destruct (get_weather_effects env config None (Now :: t)) as (Nw & Rw).
      pose proof (get_weather_requests env config None (Now :: t)) as Pw.
      rewrite !http_calls_count in Pw.
      cbn [count_events is_now is_run is_http] in *.
      repeat split; try lia; try discriminate. intros (? & [=]). }
  assert (E1 : count_events is_now t0 = S (count_events is_now t) /\
               count_events is_run t0 = count_events is_run t /\
               (b = false -> count_events is_http t0 = count_events is_http t) /\
               (count_events is_http t0 <= S (count_events is_http t))%nat).
  { destruct b.
    - apply (block_effects _ (fun v => v)) in H1. destruct H1 as (N1 & R1 & P1).
      destruct (get_weather_effects env config None (Now :: t)) as (Nw & Rw).
      pose proof (get_weather_requests env config None (Now :: t)) as Pw.
      rewrite !http_calls_count in Pw.
      cbn [count_events is_now is_run is_http] in *.
      repeat split; try lia; try discriminate.
    - injection H1 as <- <-. cbn [count_events is_now is_run is_http].
      repeat split; lia. }
  clear H1. destruct E1 as (N1 & R1 & P1 & Q1).
  next_raise H t0 H2;
    apply (block_effects _ (fun v => v)) in H2; destruct H2 as (N2 & R2 & P2);
    destruct (get_ip_address_effects env t0) as (Ni & Ri & Pi).
  2:{ injection H as <- <-. repeat split; try lia.
      - intros (? & [=]).
      - intros Hb. specialize (P1 Hb). lia. }
  next_raise H t1 H3;
    apply (block_effects _ router_ip_text) in H3; destruct H3 as (N3 & R3 & P3);
    destruct (get_router_ip_effects env t1) as (Nr & Rr & Pr).
  2:{ injection H as <- <-. repeat split; try lia.
      - intros Hb. specialize (P1 Hb). lia. }
  next_raise H t2 H4;
    apply (block_effects _ (fun v => v)) in H4; destruct H4 as (N4 & R4 & P4);
    destruct (get_uptime_effects env t2) as (Nu & Ru & Pu).
  2:{ injection H as <- <-. repeat split; try lia.
      - intros Hb. specialize (P1 Hb). lia. }
  injection H as <- <-. repeat split; try lia.
  intros Hb. specialize (P1 Hb). lia.
Qed.

(** The date of the map is the clock's reading at the start of the run. *)
Lemma get_all_info_date_time (env : Env) (config : Config) (b : bool)
    (t t' : Trace) (info : dict) :
  get_all_info (SystemInfo env config) b t = (Return info, t') ->
  exists ew ei er eu, info = info_map b (strftime_now env t) ew ei er eu.
Proof.
  unfold get_all_info. intros H. cbv zeta in H.
  rewrite bind_run in H. cbn [SystemInfo probe_current_time] in H.
  unfold get_current_time at 1 in H.
  next_block H (Now :: t) H1. next_block H t0 H2.
  next_block H t1 H3. next_block H t2 H4.
  injection H as <- <-.
  apply (block_returns _ (fun v => v)) in H2. destruct H2 as (ei & _ & ->).
  apply (block_returns _ router_ip_text) in H3. destruct H3 as (er & _ & ->).
  apply (block_returns _ (fun v => v)) in H4. destruct H4 as (eu & _ & ->).
  destruct b.
  - apply (block_returns _ (fun v => v)) in H1. destruct H1 as (ew & _ & ->).
    exists ew, ei, er, eu. reflexivity.
  - injection H1 as <- <-. exists EmptyString, ei, er, eu. reflexivity.
Qed.

(** *** The class in an environment that raises only what it catches *)

Lemma system_info_well_behaved (env : Env) (config : Config) (b : bool) :
  local_env_ok env -> (b = true -> weather_env_ok env config) ->
  well_behaved (SystemInfo env config) b.
Proof.
  intros (Hs & Hh & Hr & Hx & Hu & Hfin) Hw. repeat split.
  - intros t. eexists. reflexivity.
  - intros Hb t. apply get_weather_raises_declared. auto.
  - apply get_ip_address_raises_declared; auto.
  - apply get_router_ip_raises_declared; auto.
  - apply get_uptime_raises_declared; auto.
Qed.

Lemma offline_local_env_ok : local_env_ok offline_env.
Proof.
  repeat split.
  - intros t. eexists. reflexivity.
  - intros t negative. discriminate.
Qed.

Lemma offline_weather_env_ok : weather_env_ok offline_env mock_config.
Proof.
  split; [| split].
  - intros city key _. eexists. reflexivity.
  - exact I.
  - intros t city key url seconds _ _ _. reflexivity.
Qed.

(** X12.  Let the socket, the resolver and the routing command raise
    only [Exception]s, let the test whether the uptime file exists raise
    nothing, let reading the file raise only an [OSError], a [ValueError]
    or an [IndexError] and give no infinity (for which [format_uptime]
    raises [OverflowError]), and, when weather is included, let the URL be built from the configured template and key
    and the weather request fail only in the ways [get_weather] catches.
    Then [get_all_info] of the class returns a map, whatever fails: it has
    the keys in their order, the clock was read once, the routing command
    ran once, and at most one request was made, none without weather. *)
Theorem get_all_info_system (env : Env) (config : Config)
    (include_weather : bool) :
  local_env_ok env ->
  (include_weather = true -> weather_env_ok env config) ->
  forall t, exists info t',
    get_all_info (SystemInfo env config) include_weather t = (Return info, t') /\
    keys info = expected_keys include_weather /\
    count_events is_now t' = S (count_events is_now t) /\
    count_events is_run t' = S (count_events is_run t) /\
    (http_calls t' <= http_calls t + (if include_weather then 1 else 0))%nat.
Proof.
  intros Hl Hw t.
  destruct (get_all_info_total _ _ (system_info_well_behaved env config _ Hl Hw) t)
    as (info & t' & Hrun).
  exists info, t'. split; [exact Hrun |].
  destruct (get_all_info_effects env config _ t t' _ Hrun) as (N & _ & R & P & Q).
  apply get_all_info_inv in Hrun.
  destruct Hrun as (now & ew & ei & er & eu & _ & _ & _ & _ & _
                    & _ & _ & _ & _ & _ & ->).
  split; [apply keys_info_map |]. split; [exact N |].
  split; [apply R; eauto |].
  destruct include_weather; [lia | rewrite P by reflexivity; lia].
Qed.

(** The machine without network, [ip] and [/proc/uptime]: every probe but
    the clock fails, and the map is complete. *)
Lemma get_all_info_system_witness :
  exists info t',
    get_all_info (SystemInfo offline_env mock_config) true [] = (Return info, t') /\
    keys info = expected_keys true /\
    count_events is_now t' = S (count_events is_now []) /\
    count_events is_run t' = S (count_events is_run []) /\
    (http_calls t' <= http_calls [] + 1)%nat.
Proof.
  exact (get_all_info_system offline_env mock_config true
           offline_local_env_ok (fun _ => offline_weather_env_ok) []).
Defined.

(** ** get_router_ip, more *)

Lemma chars_snoc (cur : string) (c x : ascii) :
  In x (list_ascii_of_string (PyStr.snoc cur c)) ->
  In x (list_ascii_of_string cur) \/ x = c.
Proof.
  unfold PyStr.snoc. induction cur as [| y cur IH]; cbn.
  - intros [<- | []]. auto.
  - intros [<- | H]; [auto | destruct (IH H); auto].
Qed.

(** The tokens of [split] are not empty and hold no whitespace. *)
Lemma split_from_tokens (s cur : string) :
  (forall x, In x (list_ascii_of_string cur) -> PyStr.is_space x = false) ->
  Forall (fun tok =>
            PyStr.is_empty tok = false /\
            forall x, In x (list_ascii_of_string tok) -> PyStr.is_space x = false)
    (PyStr.split_from cur s).
Proof.
  revert cur. induction s as [| c r IH]; intros cur Hcur; cbn [PyStr.split_from].
  - destruct (PyStr.is_empty cur) eqn:He; constructor; auto.
  - destruct (PyStr.is_space c) eqn:Hc.
    + assert (Hr : Forall (fun tok =>
                PyStr.is_empty tok = false /\
                forall x, In x (list_ascii_of_string tok) -> PyStr.is_space x = false)
               (PyStr.split_from EmptyString r))
        by (apply IH; intros x []).
      destruct (PyStr.is_empty cur) eqn:He; [exact Hr | constructor; auto].
    + apply IH. intros x Hx. apply chars_snoc in Hx.
      destruct Hx as [Hx | ->]; auto.
Qed.

Lemma default_route_token (lines : list string) (ip : string) :
  default_route lines = Some ip ->
  exists line, In line lines /\ selected line = true /\
               nth_error (PyStr.split line) 2 = Some ip.
Proof.
  induction lines as [| line lines IH]; [discriminate |].
  cbn [default_route]. unfold selected at 1.
  destruct (PyStr.startswith (PyStr.strip line) "default") eqn:Hd.
  - destruct (3 <=? List.length (PyStr.split line))%nat eqn:Hn.
    + intros H. exists line. unfold selected. rewrite Hd, Hn. cbn. auto.
    + intros H. destruct (IH H) as (l & Hl & Hs). exists l. cbn. auto.
  - intros H. destruct (IH H) as (l & Hl & Hs). exists l. cbn. auto.
Qed.

Lemma not_subprocess_error (e : exn) :
  isinstance e SubprocessError = false ->
  caught_by [SubprocessError; TimeoutExpired] e = false.
Proof.
  destruct e as [c msg]. destruct c; cbn; auto.
Qed.

(** X13.  A gateway that [get_router_ip] returns is the third token of a
    line of the command's output, so it is not empty and holds no
    whitespace.  The test [if router_ip] of [get_all_info] therefore
    only ever replaces [None]: a gateway that was found is shown as it
    is. *)
Theorem get_router_ip_token (env : Env) (t t' : Trace) (ip : string) :
  get_router_ip env t = (Return (Some ip), t') ->
  PyStr.is_empty ip = false /\
  (forall x, In x (list_ascii_of_string ip) -> PyStr.is_space x = false) /\
  router_ip_text (Some ip) = ip /\
  exists stdout line,
    subprocess_run env t = Return stdout /\
    In line (PyStr.splitlines stdout) /\ selected line = true /\
    nth_error (PyStr.split line) 2 = Some ip.
Proof.
  unfold get_router_ip. run.
  destruct (subprocess_run env t) as [stdout | e] eqn:Hrun.
  - intros [= Hd _]. apply default_route_token in Hd.
    destruct Hd as (line & Hin & Hsel & Hnth).
    pose proof (split_from_tokens line EmptyString (fun x (H : In x []) => match H with end))
      as Htok.
    rewrite Forall_forall in Htok.
    destruct (Htok ip (nth_error_In _ _ Hnth)) as [Hne Hsp].
    split; [exact Hne |]. split; [exact Hsp |].
    split; [cbn; now rewrite Hne |].
    exists stdout, line. auto.
  - cbn [find fst snd].
    destruct (caught_by [SubprocessError; TimeoutExpired] e); cbn [snd]; discriminate.
Qed.

(** [test_get_router_ip_success] *)
Lemma get_router_ip_token_witness :
  PyStr.is_empty "192.168.1.1" = false /\
  (forall x, In x (list_ascii_of_string "192.168.1.1") -> PyStr.is_space x = false) /\
  router_ip_text (Some "192.168.1.1") = "192.168.1.1" /\
  exists stdout line,
    subprocess_run (with_ip_route (Return mock_ip_route_output)
                      (mock_env (Return clear_sky))) []
    = Return stdout /\
    In line (PyStr.splitlines stdout) /\ selected line = true /\
    nth_error (PyStr.split line) 2 = Some "192.168.1.1".
Proof.
  apply (get_router_ip_token
           (with_ip_route (Return mock_ip_route_output) (mock_env (Return clear_sky)))
           [] [RunIpRoute] "192.168.1.1").
  reflexivity.
Defined.

(** X14.  [get_router_ip] catches only [SubprocessError] (with
    [TimeoutExpired], which is one).  When the command raises anything
    else, as [FileNotFoundError] where the [ip] program is missing,
    [get_router_ip] raises it as it is and logs nothing; when the command
    raises a [SubprocessError] it logs the warning
    "Failed to get router IP: <message>" and returns no value.  In
    [get_all_info] the router probe is the one whose clause names
    [Exception], so there the first case gives the entry
    "Error: <message>" and the run goes on. *)
Theorem get_router_ip_uncaught :
  (forall env t e,
      subprocess_run env t = Raise e ->
      isinstance e SubprocessError = false ->
      get_router_ip env t = (Raise e, RunIpRoute :: t)) /\
  (forall env t e,
      subprocess_run env t = Raise e ->
      isinstance e SubprocessError = true ->
      get_router_ip env t
      = (Return None,
         Log WARNING ("Failed to get router IP: " ++ str_of e) :: RunIpRoute :: t)) /\
  (forall env config include_weather e t info t',
      (forall t0, subprocess_run env t0 = Raise e) ->
      isinstance e SubprocessError = false ->
      isinstance e Exception = true ->
      get_all_info (SystemInfo env config) include_weather t = (Return info, t') ->
      dict_get info "Router IP" = Some ("Error: " ++ str_of e)).
Proof.
  assert (Ha : forall env t e,
             subprocess_run env t = Raise e ->
             isinstance e SubprocessError = false ->
             get_router_ip env t = (Raise e, RunIpRoute :: t)).
  { intros env t e H He. unfold get_router_ip. run. rewrite H.
    cbn [find fst snd]. rewrite (not_subprocess_error e He). reflexivity. }
  split; [exact Ha |]. split.
  - intros env t e H He. unfold get_router_ip. run. rewrite H.
    cbn [find fst snd caught_by existsb]. rewrite He. reflexivity.
  - intros env config b e t info t' Hrun Hs He Hinfo.
    apply get_all_info_inv in Hinfo.
    destruct Hinfo as (now & ew & ei & er & eu & _ & _ & _ & tr & _
                       & _ & _ & _ & H3 & _ & ->).
    cbn [SystemInfo probe_router_ip] in H3.
    rewrite (Ha env tr e (Hrun tr) Hs) in H3.
    cbn [fst entry_of caught_by existsb] in H3. rewrite He in H3.
    injection H3 as <-. destruct b; reflexivity.
Qed.

(** The machine without the [ip] program. *)
Lemma get_router_ip_uncaught_witness :
  exists info t',
    get_all_info (SystemInfo offline_env mock_config) false [] = (Return info, t') /\
    dict_get info "Router IP"
    = Some "Error: [Errno 2] No such file or directory: 'ip'".
Proof.
  let run := eval vm_compute in
        (get_all_info (SystemInfo offline_env mock_config) false []) in
  match run with
  | (Return ?info, ?t') =>
      exists info, t'; split; [reflexivity |];
      apply (proj2 (proj2 get_router_ip_uncaught) offline_env mock_config false
               (Exn FileNotFoundError "[Errno 2] No such file or directory: 'ip'")
               [] info t')
  end.
  - intros t0. reflexivity.
  - reflexivity.
  - reflexivity.
  - reflexivity.
Defined.

(** ** main *)

(** Whatever path [main] takes to its map, at most one request is
    made. *)
Lemma main_info_data_requests (env : Env) (config : Config) (no_weather : bool)
    (city : option string) (t t' : Trace) (r : result dict) :
  main_info_data (SystemInfo env config) no_weather city t = (r, t') ->
  (http_calls t' <= S (http_calls t))%nat.
Proof.
  unfold main_info_data.
  destruct (negb no_weather && Py.truthy_opt city).
  - unfold try_except. rewrite bind_run.
    assert (Handler : forall e t1,
               (http_calls t1 <= S (http_calls t))%nat ->
               (info_data <- get_all_info (SystemInfo env config) false ;;
                ret (dict_set info_data "Weather" ("Error: " ++ str_of e))) t1
               = (r, t') ->
               (http_calls t' <= S (http_calls t))%nat).
    { intros e t1 Ht1. rewrite bind_run.
      destruct (get_all_info (SystemInfo env config) false t1) as [[info1 | e1] t2] eqn:H1;
        destruct (get_all_info_effects env config _ t1 t2 _ H1) as (_ & _ & _ & P & _);
        intros [= _ <-]; rewrite P by reflexivity; exact Ht1. }
    destruct (get_all_info (SystemInfo env config) false t) as [[info0 | e0] t0] eqn:H0;
      destruct (get_all_info_effects env config _ t t0 _ H0) as (_ & _ & _ & P0 & _);
      specialize (P0 eq_refl).
    + rewrite bind_run. cbn [SystemInfo probe_weather].
      pose proof (get_weather_requests env config city t0) as Pw.
      destruct (get_weather env config city t0) as [[w | e] t1]; cbn [snd] in Pw.
      * intros [= _ <-]. lia.
      * cbn [find fst snd]. destruct (caught_by [Exception] e); cbn [snd].
        -- apply Handler. lia.
        -- intros [= _ <-]. lia.
    + cbn [find fst snd]. destruct (caught_by [Exception] e0); cbn [snd].
      * apply Handler. lia.
      * intros [= _ <-]. lia.
  - intros H.
    destruct (get_all_info_effects env config _ t t' _ H) as (_ & _ & _ & _ & Q).
    exact Q.
Qed.

Lemma main_info_data_keys (sys_info : Probes) (no_weather : bool)
    (city : option string) (t t' : Trace) (info : dict) :
  main_info_data sys_info no_weather city t = (Return info, t') ->
  keys info = expected_keys (negb no_weather) \/
  (no_weather = false /\
   keys info = ["Date/Time"; "IP Address"; "Router IP"; "Uptime"; "Weather"]).
Proof.
  destruct (negb no_weather && Py.truthy_opt city) eqn:Hpath.
  - apply andb_prop in Hpath. destruct Hpath as [Hnw Hcity].
    apply negb_true_iff in Hnw. subst no_weather. intros Hrun. right.
    split; [reflexivity |]. exact (city_override_keys _ _ _ _ _ Hcity Hrun).
  - unfold main_info_data. rewrite Hpath. intros Hrun. left.
    apply get_all_info_inv in Hrun.
    destruct Hrun as (now & ew & ei & er & eu & _ & _ & _ & _ & _
                      & _ & _ & _ & _ & _ & ->).
    apply keys_info_map.
Qed.

Lemma keyboard_interrupt_not_exception (e : exn) :
  isinstance e Exception = true -> isinstance e KeyboardInterrupt = false.
Proof. destruct e as [c msg]. destruct c; cbn; auto; discriminate. Qed.

(** X15.  On the [--city] path of [main], when the first run of the
    probes returned: if [get_weather(city)] returns, its text is added to
    the map of that run, whose date is the reading at the start, and the
    clock and the routing command were used once.  If [get_weather(city)]
    raises, the map of the first run is dropped and all the other probes
    run a second time: the clock is read twice and the routing command
    runs twice, the map shown is the one of the second run, with the date
    read after the weather request failed, and its weather entry is
    "Error: <message>". *)
Theorem city_override_twice (env : Env) (config : Config) (city : option string)
    (t t0 t1 t' : Trace) (info0 info : dict) :
  Py.truthy_opt city = true ->
  get_all_info (SystemInfo env config) false t = (Return info0, t0) ->
  main_info_data (SystemInfo env config) false city t = (Return info, t') ->
  (forall weather,
      get_weather env config city t0 = (Return weather, t1) ->
      info = dict_set info0 "Weather" weather /\
      dict_get info "Date/Time" = Some (strftime_now env t) /\
      count_events is_now t' = S (count_events is_now t) /\
      count_events is_run t' = S (count_events is_run t)) /\
  (forall e,
      get_weather env config city t0 = (Raise e, t1) ->
      (exists info1,
          get_all_info (SystemInfo env config) false t1 = (Return info1, t') /\
          info = dict_set info1 "Weather" ("Error: " ++ str_of e)) /\
      dict_get info "Weather" = Some ("Error: " ++ str_of e) /\
      dict_get info "Date/Time" = Some (strftime_now env t1) /\
      count_events is_now t' = S (S (count_events is_now t)) /\
      count_events is_run t' = S (S (count_events is_run t))).
Proof.
  intros Hcity H0 Hmain.
  unfold main_info_data in Hmain. cbn [negb andb] in Hmain. rewrite Hcity in Hmain.
  unfold try_except in Hmain. rewrite bind_run, H0, bind_run in Hmain.
  cbn [SystemInfo probe_weather] in Hmain.
  destruct (get_all_info_effects env config _ t t0 _ H0) as (N0 & _ & R0 & _).
  specialize (R0 (ex_intro _ info0 eq_refl)).
  destruct (get_weather_effects env config city t0) as (Nw & Rw).
  split.
  - intros weather Hw. rewrite Hw in Hmain, Nw, Rw. cbn [snd] in Nw, Rw.
    injection Hmain as <- <-.
    destruct (get_all_info_date_time env config _ t t0 info0 H0)
      as (ew & ei & er & eu & ->).
    repeat split; congruence.
  - intros e Hw. rewrite Hw in Hmain, Nw, Rw. cbn [snd] in Nw, Rw.
    cbn [find fst snd] in Hmain.
    destruct (caught_by [Exception] e); [| discriminate].
    cbn [snd] in Hmain. rewrite bind_run in Hmain.
    destruct (get_all_info (SystemInfo env config) false t1) as [[info1 | e1] t2] eqn:H1;
      [| discriminate].
    injection Hmain as <- <-.
    destruct (get_all_info_effects env config _ t1 t2 _ H1) as (N1 & _ & R1 & _).
    specialize (R1 (ex_intro _ info1 eq_refl)).
    split; [exists info1; auto |].
    destruct (get_all_info_date_time env config _ t1 t2 info1 H1)
      as (ew & ei & er & eu & ->).
    repeat split; congruence.
Qed.

(** [--city Paris] on the machine without network. *)
Lemma city_override_twice_witness :
  exists info t',
    main_info_data (SystemInfo offline_env mock_config) false (Some "Paris") []
    = (Return info, t') /\
    dict_get info "Weather"
    = Some "Error: Failed to fetch weather data: Network is unreachable" /\
    count_events is_now t' = 2%nat /\
    count_events is_run t' = 2%nat.
Proof.
  let r0 := eval vm_compute in
        (get_all_info (SystemInfo offline_env mock_config) false []) in
  match r0 with
  | (Return ?info0, ?t0) =>
      let rw := eval vm_compute in
            (get_weather offline_env mock_config (Some "Paris") t0) in
      match rw with
      | (Raise ?e, ?t1) =>
          let rm := eval vm_compute in
                (main_info_data (SystemInfo offline_env mock_config) false
                   (Some "Paris") []) in
          match rm with
          | (Return ?info, ?t') =>
              exists info, t'; split; [reflexivity |];
              destruct (proj2 (city_override_twice offline_env mock_config
                                 (Some "Paris") [] t0 t1 t' info0 info
                                 eq_refl eq_refl eq_refl) e eq_refl)
                as (_ & Hw & _ & Hn & Hr)
          end
      end
  end.
  split; [exact Hw |]. split; [exact Hn | exact Hr].
Defined.

Lemma main_except_logger (e : exn) (logger : Logging.Logger) (t : Trace) :
  final_logger (main_except e logger t) = logger.
Proof.
  unfold main_except.
  destruct (isinstance e KeyboardInterrupt); [reflexivity |].
  destruct (isinstance e Exception); reflexivity.
Qed.

Lemma main_except_requests (e : exn) (logger : Logging.Logger) (t : Trace) :
  http_calls (final_trace (main_except e logger t)) = http_calls t.
Proof.
  unfold main_except.
  destruct (isinstance e KeyboardInterrupt); [reflexivity |].
  destruct (isinstance e Exception); reflexivity.
Qed.


(** The standard output is closed: [print(table)] raises inside the
    [try], so [main] returns 1 though every probe succeeded. *)
Lemma main_closed_stdout :
  let out := main (Return mock_config) (mock_env (Return clear_sky))
               closed_stdout no_weather_args Logging.fresh [] in
  exit_code out = Return 1 /\
  printed_out out = [] /\
  printed_err out = ["Error: I/O operation on closed file."].
Proof. repeat split. Qed.

(** X17.  When [Config(...)] raises an [Exception], [main] returns 1 and
    prints "Error: <message>" on the error stream; it logs
    "Unexpected error: <message>", and no probe has run. *)
Theorem main_config_error (env : Env) (terminal : Terminal.t)
    (parsed_args : Args.t) (logger : Logging.Logger) (t : Trace) (e : exn) :
  isinstance e Exception = true ->
  let out := main (Raise e) env terminal parsed_args logger t in
  exit_code out = Return 1 /\
  printed_out out = [] /\
  printed_err out = ["Error: " ++ str_of e] /\
  final_trace out = Log ERROR ("Unexpected error: " ++ str_of e) :: t.
Proof.
  intros He. cbv zeta. unfold main, main_except.
  rewrite (keyboard_interrupt_not_exception e He), He. cbn. auto.
Qed.

(** [test_main_config_error] *)
Lemma main_config_error_witness :
  let out := main (Raise (Exn Exception "Config error"))
               (mock_env (Return clear_sky)) pipe default_args Logging.fresh [] in
  exit_code out = Return 1 /\
  printed_out out = [] /\
  printed_err out = ["Error: Config error"] /\
  final_trace out = [Log ERROR "Unexpected error: Config error"].
Proof.
  exact (main_config_error (mock_env (Return clear_sky)) pipe default_args
           Logging.fresh [] (Exn Exception "Config error") eq_refl).
Defined.

(** X18.  Let the socket, the resolver and the routing command raise only
    [Exception]s; let the test whether the uptime file exists raise
    nothing, and reading the file raise only an [OSError], a [ValueError]
    or an [IndexError] and give no infinity; let weather be
    switched off, or the URL be built from the configured template and key
    and the weather request fail only in the ways [get_weather] catches;
    and let the standard output work: [isatty()] returns (or
    [--no-colors] is given, and it is not called) and [print] returns.
    Then [main], once the configuration is built, returns 0 for all
    arguments: [print] has written one table on the standard output and
    [main] has printed nothing on the error stream (the failures of the
    probes are logged, and the logger's handler writes those records
    there); the table has the keys of [get_all_info] (in another order on
    the [--city] path), colours are used exactly without [--no-colors] on
    a terminal, and at most one request was made. *)
Theorem main_succeeds (env : Env) (config : Config) (terminal : Terminal.t)
    (parsed_args : Args.t) :
  local_env_ok env ->
  (Args.no_weather parsed_args = true \/ weather_env_ok env config) ->
  (Args.no_colors parsed_args = true
   \/ exists tty, Terminal.isatty terminal = Return tty) ->
  (forall text, Terminal.print terminal text = Return tt) ->
  forall logger t,
    let out := main (Return config) env terminal parsed_args logger t in
    exit_code out = Return 0 /\
    printed_err out = [] /\
    (http_calls (final_trace out) <= S (http_calls t))%nat /\
    exists info_data use_colors,
      (if Args.no_colors parsed_args then Return false
       else Terminal.isatty terminal) = Return use_colors /\
      printed_out out = [format_table info_data use_colors] /\
      Permutation (keys info_data)
        (expected_keys (negb (Args.no_weather parsed_args))).
Proof.
  intros Hl Hw Htty Hprint logger t. cbv zeta. unfold main.
  assert (Hrun : exists info t',
             main_info_data (SystemInfo env config) (Args.no_weather parsed_args)
               (Args.city parsed_args) t = (Return info, t') /\
             Permutation (keys info)
               (expected_keys (negb (Args.no_weather parsed_args)))).
  { destruct (negb (Args.no_weather parsed_args) && Py.truthy_opt (Args.city parsed_args))
      eqn:Hpath.
    - apply andb_prop in Hpath. destruct Hpath as [Hnw Hcity].
      apply negb_true_iff in Hnw. rewrite Hnw in *.
      destruct Hw as [Hw | Hw]; [discriminate |].
      destruct (city_override_returns (SystemInfo env config) (Args.city parsed_args)
                  Hcity
                  (system_info_well_behaved env config false Hl
                     (fun H => False_ind _ (Bool.diff_false_true H)))
                  (fun t0 => declared_exception _
                               (get_weather_raises_declared env config Hw _ t0))
                  t)
        as (info & t' & _ & Hmain & _ & Hperm & _).
      exists info, t'. auto.
    - unfold main_info_data. rewrite Hpath.
      assert (WB : well_behaved (SystemInfo env config)
                     (negb (Args.no_weather parsed_args))).
      { apply system_info_well_behaved; [exact Hl |].
        intros Hb. destruct Hw as [Hw | Hw]; [| exact Hw].
        rewrite Hw in Hb. discriminate. }
      destruct (get_all_info_total _ _ WB t) as (info & t' & Hrun).
      exists info, t'. split; [exact Hrun |].
      apply get_all_info_inv in Hrun.
      destruct Hrun as (now & ew & ei & er & eu & _ & _ & _ & _ & _
                        & _ & _ & _ & _ & _ & ->).
      rewrite keys_info_map. apply Permutation_refl. }
  destruct Hrun as (info & t' & Hrun & Hperm). rewrite Hrun.
  assert (Hcol : exists use_colors,
             (if Args.no_colors parsed_args then Return false
              else Terminal.isatty terminal) = Return use_colors).
  { destruct Htty as [-> | (tty & Htty)]; [eauto |].
    destruct (Args.no_colors parsed_args); eauto. }
  destruct Hcol as (use_colors & Hcol). rewrite Hcol, Hprint. cbn.
  split; [reflexivity |]. split; [reflexivity |].
  split; [exact (main_info_data_requests env config _ _ t t' _ Hrun) |].
  exists info, use_colors. auto.
Qed.

(** [sysstatus --city Paris --log-level DEBUG] in a terminal on the
    machine without network: the exit status is 0. *)
Lemma main_succeeds_witness :
  let out := main (Return mock_config) offline_env tty (city_args "Paris")
               Logging.fresh [] in
  exit_code out = Return 0 /\
  printed_err out = [] /\
  (http_calls (final_trace out) <= S (http_calls []))%nat /\
  exists info_data use_colors,
    Return true = Return use_colors /\
    printed_out out = [format_table info_data use_colors] /\
    Permutation (keys info_data) (expected_keys (negb false)).
Proof.
  exact (main_succeeds offline_env mock_config tty (city_args "Paris")
           offline_local_env_ok (or_intror offline_weather_env_ok)
           (or_intror (ex_intro _ true eq_refl)) (fun _ => eq_refl)
           Logging.fresh []).
Defined.

(** X19.  With [--no-weather], [main] makes no request, whatever the
    other arguments are and whatever happens: with or without [--city],
    whether the configuration can be built or not, whether the probes
    return, raise or are interrupted. *)
Theorem main_no_weather_offline (new_config : result Config) (env : Env)
    (terminal : Terminal.t) (parsed_args : Args.t) (logger : Logging.Logger)
    (t : Trace) :
  Args.no_weather parsed_args = true ->
  http_calls (final_trace (main new_config env terminal parsed_args logger t))
  = http_calls t.
Proof.
  intros Hnw. unfold main.
  destruct new_config as [config | e]; [| apply main_except_requests].
  unfold main_info_data. rewrite Hnw. cbn [negb andb].
  destruct (get_all_info (SystemInfo env config) false t) as [[info | e] t'] eqn:Hrun;
    destruct (get_all_info_effects env config _ t t' _ Hrun) as (_ & _ & _ & P & _);
    specialize (P eq_refl).
  - repeat break_match; rewrite ?main_except_requests; cbn; exact P.
  - rewrite main_except_requests. exact P.
Qed.

(** [test_main_no_weather], with the class in place of its mock. *)
Lemma main_no_weather_offline_witness :
  http_calls (final_trace (main (Return mock_config) (mock_env (Return clear_sky))
                             pipe no_weather_args Logging.fresh []))
  = http_calls [].
Proof.
  exact (main_no_weather_offline (Return mock_config) (mock_env (Return clear_sky))
           pipe no_weather_args Logging.fresh [] eq_refl).
Defined.

Lemma label_width_keys (data : dict) :
  label_width_of data = list_max (map String.length (keys data)).
Proof. unfold label_width_of, keys. now rewrite map_map. Qed.

(** X20.  The map [main] passes to [format_table] is never empty, so
    "No system information available" is never printed by [main]; whatever
    the probes did, the label column is ten characters wide (the width of
    "IP Address"), and the table has six lines without weather and seven
    with it. *)
Theorem main_table_shape (sys_info : Probes) (no_weather : bool)
    (city : option string) (t t' : Trace) (info : dict) (use_colors : bool) :
  main_info_data sys_info no_weather city t = (Return info, t') ->
  format_table info use_colors
  = PyStr.join newline (table_lines info use_colors) /\
  label_width_of info = 10%nat /\
  List.length (table_lines info use_colors)
  = (if no_weather then 6 else 7)%nat.
Proof.
  intros Hrun. apply main_info_data_keys in Hrun.
  assert (Hlen : List.length info = List.length (keys info))
    by (unfold keys; now rewrite length_map).
  assert (Hne : info <> []).
  { intros ->. destruct Hrun as [Hk | [_ Hk]]; [destruct no_weather |];
      discriminate. }
  split; [now apply format_table_lines |].
  rewrite table_lines_rows. cbn [List.length]. rewrite length_map, Hlen.
  rewrite label_width_keys.
  destruct Hrun as [Hk | [-> Hk]]; rewrite Hk.
  - destruct no_weather; split; reflexivity.
  - split; reflexivity.
Qed.

(** [test_get_all_info_with_errors], printed. *)
Lemma main_table_shape_witness :
  exists info,
    fst (main_info_data patched_with_errors false None []) = Return info /\
    format_table info false = PyStr.join newline (table_lines info false) /\
    label_width_of info = 10%nat /\
    List.length (table_lines info false) = 7%nat.
Proof.
  let run := eval vm_compute in (main_info_data patched_with_errors false None []) in
  match run with
  | (Return ?info, ?t') =>
      exists info; split; [reflexivity |];
      exact (main_table_shape patched_with_errors false None [] t' info false
               eq_refl)
  end.
Defined.

(** ** setup_logging *)

(** X21.  Setting the logger up again changes its level to the level
    given last and adds no second handler: two calls in a row leave what
    the second call alone leaves.  After any call the logger has a handler;
    a logger that had handlers keeps exactly those, and a fresh one gets
    one. *)
Theorem setup_logging_again (first second : Logging.level_name)
    (logger : Logging.Logger) :
  Logging.setup_logging second (Logging.setup_logging first logger)
  = Logging.setup_logging second logger /\
  Logging.level (Logging.setup_logging second logger)
  = Logging.level_number second /\
  Logging.handlers (Logging.setup_logging first logger) <> [] /\
  (Logging.handlers logger <> [] ->
   Logging.handlers (Logging.setup_logging first logger) = Logging.handlers logger) /\
  List.length (Logging.handlers (Logging.setup_logging first Logging.fresh)) = 1%nat.
Proof.
  unfold Logging.setup_logging. destruct logger as [lv hs].
  cbn [Logging.handlers Logging.level].
  destruct hs as [| h hs]; cbn; repeat split; try discriminate; auto;
    intros H; now elim H.
Qed.

Lemma setup_logging_again_witness :
  Logging.handlers
    (Logging.setup_logging Logging.INFO
       (Logging.setup_logging Logging.DEBUG Logging.fresh))
  = Logging.handlers (Logging.setup_logging Logging.DEBUG Logging.fresh).
Proof.
  apply (proj1 (proj2 (proj2 (proj2
           (setup_logging_again Logging.INFO Logging.INFO
              (Logging.setup_logging Logging.DEBUG Logging.fresh)))))).
  discriminate.
Defined.

(** X22.  [main] sets the logger to the level of [--log-level], and
    [SystemInfo(config)] then sets it up again with the default "INFO".
    So once the configuration is built the logger is at level INFO (20)
    whatever [--log-level] says: with [--log-level DEBUG] the debug
    messages of [get_weather] are below the logger's level, and with the
    default WARNING the level is lowered to INFO.  The level given is in
    force only when [Config(...)] raises.  The handlers are those of one
    call of [setup_logging]. *)
Theorem main_logger_level (new_config : result Config) (env : Env)
    (terminal : Terminal.t) (parsed_args : Args.t) (logger : Logging.Logger)
    (t : Trace) :
  let out := main new_config env terminal parsed_args logger t in
  (forall config, new_config = Return config ->
     Logging.level (final_logger out) = Logging.level_number Logging.INFO) /\
  (forall e, new_config = Raise e ->
     Logging.level (final_logger out)
     = Logging.level_number (Args.log_level parsed_args)) /\
  Logging.handlers (final_logger out)
  = Logging.handlers (Logging.setup_logging Logging.INFO logger).
Proof.
  cbv zeta. unfold main.
  destruct new_config as [config | e].
  - repeat break_match; rewrite ?main_except_logger;
      destruct logger as [lv [| h hs]];
      (split; [intros; reflexivity | split; [discriminate | reflexivity]]).
  - rewrite main_except_logger. destruct logger as [lv [| h hs]];
      (split; [discriminate | split; [intros; reflexivity | reflexivity]]).
Qed.

(** [--log-level DEBUG]: the level is 20, not 10. *)
Lemma main_logger_level_witness :
  Logging.level
    (final_logger (main (Return mock_config) (mock_env (Return clear_sky)) pipe
                     (city_args "Paris") Logging.fresh []))
  = 20.
Proof.
  exact (proj1 (main_logger_level (Return mock_config)
                  (mock_env (Return clear_sky)) pipe (city_args "Paris")
                  Logging.fresh [])
           mock_config eq_refl).
Defined.

(** ** format_uptime below zero *)

Lemma py_int_ceil (x : Q) (n : Z) :
  (inject_Z (n - 1) < x)%Q -> (x <= inject_Z n)%Q -> n <= 0 -> py_int x = n.
Proof.
  destruct x as [p q]. unfold py_int, Qle, Qlt, inject_Z. simpl.
  intros Hlo Hhi Hn.
  assert (Hp : p <= 0) by nia.
  rewrite <- (Z.opp_involutive p). rewrite Z.quot_opp_l by lia.
  rewrite Z.quot_div_nonneg by lia.
  assert (E : - p / Z.pos q = - n).
  { symmetry. apply Z.div_unique with (r := - p - (- n) * Z.pos q); nia. }
  rewrite E. lia.
Qed.

(** X23.  [format_uptime] accepts a number of seconds below zero.  The
    fractional part is discarded towards zero (the integer is the least
    one not below [x]), and the units come from floor division: the hours,
    minutes and seconds are never negative and the days carry the sign.
    So -0.5 gives "0s", -1 gives "-1d 23h 59m 59s", and -86400 gives
    "-1d". *)
Theorem format_uptime_negative :
  (forall (x : Q) (n d h m s : Z),
      (x <= 0)%Q ->
      (inject_Z (n - 1) < x)%Q -> (x <= inject_Z n)%Q ->
      n = d * 86400 + h * 3600 + m * 60 + s ->
      0 <= h < 24 -> 0 <= m < 60 -> 0 <= s < 60 ->
      format_uptime x = render_units (nonzero_units d h m s)) /\
  format_uptime (- 1 # 2) = "0s" /\
  format_uptime (- 1) = "-1d 23h 59m 59s" /\
  format_uptime (- 86400) = "-1d".
Proof.
  split; [| repeat split; reflexivity].
  intros x n d h m s Hx Hlo Hhi Hn Hh Hm Hs.
  unfold format_uptime. cbv zeta.
  assert (Hn0 : n <= 0).
  { destruct x as [p q]. unfold Qle, Qlt, inject_Z in *. simpl in *. nia. }
  rewrite (py_int_ceil x n Hlo Hhi Hn0).
  now apply uptime_parts_units.
Qed.

Lemma format_uptime_negative_witness :
  format_uptime (- 37258 # 10) = "-1d 22h 57m 55s".
Proof.
  apply (proj1 format_uptime_negative (- 37258 # 10)%Q (- 3725) (- 1) 22 57 55);
    unfold Qle, Qlt; simpl; lia.
Defined.
